(** * dynamic_secrets_example: a model of [main.cpp]

    The program reads two environment variables, logs in to a secrets
    broker, loads [config.json], asks the broker for database credentials,
    builds a libpq connection string and opens one connection.

    Everything outside [main.cpp] (the environment, the file system, the
    JSON text parser, the broker client and the database driver) is a field
    of the record [World]; the functions of [main.cpp] are written over it in
    a small state-and-exception monad whose state is the list of I/O events
    performed so far. *)

From Stdlib Require Import ZArith String List Bool Lia DecimalString.
From Stdlib Require Import Floats.SpecFloat.
Import ListNotations.

Open Scope string_scope.
Open Scope Z_scope.

(** ** JSON values (the data model of [nlohmann::json])

    [lib/json.hpp] is the nlohmann/json library.  Its values are modelled as
    data and the few accessors [main.cpp] calls are written out after the
    library's documented behaviour; the text parser is left to the world. *)

Module Json.

(** The kinds of value ([value_t]). *)
Inductive value_t : Type :=
| t_null | t_object | t_array | t_string | t_boolean
| t_number_integer | t_number_unsigned | t_number_float.

(** A JSON value.  [JInt] holds a [std::int64_t], [JUInt] a
    [std::uint64_t], [JFloat] a [double]; an object is kept as the list of
    its members and read by key. *)
#[warnings="-register-all"]
Inductive json : Type :=
| JNull
| JBool (b : bool)
| JInt (z : Z)
| JUInt (n : Z)
| JFloat (d : spec_float)
| JString (s : string)
| JArray (items : list json)
| JObject (members : list (string * json)).

Definition type_of (j : json) : value_t :=
  match j with
  | JNull => t_null
  | JBool _ => t_boolean
  | JInt _ => t_number_integer
  | JUInt _ => t_number_unsigned
  | JFloat _ => t_number_float
  | JString _ => t_string
  | JArray _ => t_array
  | JObject _ => t_object
  end.

(** Member lookup, [std::map::find]. *)
Fixpoint find (key : string) (members : list (string * json)) : option json :=
  match members with
  | [] => None
  | (k, v) :: rest => if String.eqb key k then Some v else find key rest
  end.

End Json.
Export Json.

(** ** Exceptions and outcomes *)

(** The exceptions the program can see; all of them derive from
    [std::exception], which is what [main] catches. *)
Inductive exception : Type :=
| parse_error (what : string)
| type_error (id : Z) (actual : value_t)
| out_of_range (id : Z) (key : string)
| runtime_error (what : string).

(** How a piece of code can end. *)
Inductive res (A : Type) : Type :=
| Val (a : A)            (* it returns *)
| Throw (e : exception)  (* an exception leaves it *)
| Exit (code : Z)        (* [exit] was called *)
| Undef.                 (* undefined behaviour *)

Arguments Val {A} a.
Arguments Throw {A} e.
Arguments Exit {A} code.
Arguments Undef {A}.

(** ** The accessors of [nlohmann::json] that [main.cpp] calls *)

(** [static_cast<int>] of a 64-bit integer: reduction modulo 2^32. *)
Definition int_of_Z (z : Z) : Z := (z + 2 ^ 31) mod 2 ^ 32 - 2 ^ 31.

Definition fits_int (z : Z) : bool := (- 2 ^ 31 <=? z) && (z <? 2 ^ 31).

(** The integer part of a [double], rounded towards zero; none for
    infinities and NaN. *)
Definition truncate (d : spec_float) : option Z :=
  match d with
  | S754_zero _ => Some 0
  | S754_finite s m e =>
      let a := Z.shiftl (Z.pos m) e in
      Some (if s then - a else a)
  | S754_infinity _ | S754_nan => None
  end.

(** [static_cast<int>] of a [double]: defined only when the truncated value
    is an [int]. *)
Definition int_of_double (d : spec_float) : res Z :=
  match truncate d with
  | Some z => if fits_int z then Val z else Undef
  | None => Undef
  end.

(** [j[key]] on a non-const value: a null value becomes an object, a missing
    member is inserted as null, anything that is not an object throws
    [type_error.305].  The result is the container after the call and the
    member referred to. *)
Definition subscript (j : json) (key : string) : res (json * json) :=
  match j with
  | JNull => Val (JObject [(key, JNull)], JNull)
  | JObject members =>
      match find key members with
      | Some v => Val (j, v)
      | None => Val (JObject (members ++ [(key, JNull)])%list, JNull)
      end
  | _ => Throw (type_error 305 (type_of j))
  end.

(** [j.at(key)]: [type_error.304] unless [j] is an object,
    [out_of_range.403] when the key is missing. *)
Definition at_ (j : json) (key : string) : res json :=
  match j with
  | JObject members =>
      match find key members with
      | Some v => Val v
      | None => Throw (out_of_range 403 key)
      end
  | _ => Throw (type_error 304 (type_of j))
  end.

(** Conversion to [int] ([get_to(int&)]): every number kind and booleans
    are converted with [static_cast], other kinds throw [type_error.302]. *)
Definition get_int (j : json) : res Z :=
  match j with
  | JUInt n => Val (int_of_Z n)
  | JInt z => Val (int_of_Z z)
  | JFloat d => int_of_double d
  | JBool b => Val (if b then 1 else 0)
  | _ => Throw (type_error 302 (type_of j))
  end.

(** Conversion to [std::string]: only a JSON string converts. *)
Definition get_string (j : json) : res string :=
  match j with
  | JString s => Val s
  | _ => Throw (type_error 302 (type_of j))
  end.

(** ** The world outside [main.cpp] *)

(** An authenticated-or-not [Vault::Client]. *)
Record Client : Type := { is_authenticated : bool }.

Record World : Type := {
  (** [std::getenv]; [None] is the null pointer. *)
  getenv : string -> option string;
  (** The contents of the file at a path; [None] when it cannot be opened.
      A path that opens but cannot be read (a directory) is not among the
      worlds. *)
  file : string -> option string;
  (** [nlohmann::json::parse]. *)
  json_parse : string -> exception + json;
  (** Construction of the AppRole strategy from the two identifiers and of
      the [Vault::Client] from it: the login round trip. *)
  approle_login : string -> string -> Client;
  (** [Vault::Database::generateCredentials] for a role path. *)
  generate_credentials : Client -> string -> option string;
  (** Construction of [pqxx::connection]: it throws, or yields a connection
      whose [is_open()] is the boolean. *)
  pq_connect : string -> exception + bool
}.

(** ** I/O events *)

Inductive event : Type :=
| EGetenv (name : string)
| EStdout (line : string)
| EStdoutWhat (e : exception)
| EVaultLogin (roleId secretId : string)
| EReadFile (path : string)
| EGenerateCredentials (role : string)
| EDbConnect (conninfo : string).

Definition Trace : Type := list event.

(** ** The monad: state passing with the four outcomes *)

Definition M (S A : Type) : Type := S -> S * res A.

Definition ret {S A} (a : A) : M S A := fun s => (s, Val a).

Definition bind {S A B} (m : M S A) (k : A -> M S B) : M S B :=
  fun s =>
    match m s with
    | (s', Val a) => k a s'
    | (s', Throw e) => (s', Throw e)
    | (s', Exit c) => (s', Exit c)
    | (s', Undef) => (s', Undef)
    end.

(** A call of a library function that has no state of its own. *)
Definition pure {S A} (r : res A) : M S A := fun s => (s, r).

(** [try { body } catch (const std::exception &e) { handler e }]. *)
Definition try_catch {S A} (body : M S A) (handler : exception -> M S A) : M S A :=
  fun s =>
    match body s with
    | (s', Throw e) => handler e s'
    | other => other
    end.

Declare Scope prog_scope.
Delimit Scope prog_scope with prog.
Notation "x <- m ;; k" := (bind m (fun x => k))
  (at level 61, m at next level, right associativity) : prog_scope.
Notation "' pat <- m ;; k" := (bind m (fun x => match x with pat => k end))
  (at level 61, pat pattern, m at next level, right associativity) : prog_scope.
Notation "m ;; k" := (bind m (fun _ => k))
  (at level 61, right associativity) : prog_scope.
Open Scope prog_scope.

Definition of_sum {A} (r : exception + A) : res A :=
  match r with
  | inl e => Throw e
  | inr a => Val a
  end.

(** Appending one event to the trace. *)
Definition emit (ev : event) : M Trace unit := fun tr => ((tr ++ [ev])%list, Val tt).

(** ** [struct DatabaseConfig] *)

Record DatabaseConfig : Type := {
  port : Z;
  host : string;
  database : string;
  secretRole : string;
  username : string;
  password : string
}.

(** A value-initialised [DatabaseConfig]. *)
Definition empty_config : DatabaseConfig :=
  {| port := 0; host := ""; database := ""; secretRole := "";
     username := ""; password := "" |}.

Definition set_port (v : Z) (c : DatabaseConfig) : DatabaseConfig :=
  {| port := v; host := host c; database := database c;
     secretRole := secretRole c; username := username c; password := password c |}.
Definition set_host (v : string) (c : DatabaseConfig) : DatabaseConfig :=
  {| port := port c; host := v; database := database c;
     secretRole := secretRole c; username := username c; password := password c |}.
Definition set_database (v : string) (c : DatabaseConfig) : DatabaseConfig :=
  {| port := port c; host := host c; database := v;
     secretRole := secretRole c; username := username c; password := password c |}.
Definition set_secretRole (v : string) (c : DatabaseConfig) : DatabaseConfig :=
  {| port := port c; host := host c; database := database c;
     secretRole := v; username := username c; password := password c |}.
Definition set_username (v : string) (c : DatabaseConfig) : DatabaseConfig :=
  {| port := port c; host := host c; database := database c;
     secretRole := secretRole c; username := v; password := password c |}.
Definition set_password (v : string) (c : DatabaseConfig) : DatabaseConfig :=
  {| port := port c; host := host c; database := database c;
     secretRole := secretRole c; username := username c; password := v |}.

(** A member function runs on its object and on the trace. *)
Definition Method (A : Type) : Type := M (DatabaseConfig * Trace) A.

Definition this : Method DatabaseConfig := fun s => (s, Val (fst s)).

Definition assign (f : DatabaseConfig -> DatabaseConfig) : Method unit :=
  fun s => ((f (fst s), snd s), Val tt).

(** I/O done from inside a member function. *)
Definition io {A} (m : M Trace A) : Method A :=
  fun s =>
    let '(tr, r) := m (snd s) in ((fst s, tr), r).

(** [obj.m()]: the object after the call comes back with the result; when
    the call does not return the object is gone with the stack frame. *)
Definition call {A} (obj : DatabaseConfig) (m : Method A) : M Trace (DatabaseConfig * A) :=
  fun tr =>
    match m (obj, tr) with
    | ((obj', tr'), Val a) => (tr', Val (obj', a))
    | ((_, tr'), Throw e) => (tr', Throw e)
    | ((_, tr'), Exit c) => (tr', Exit c)
    | ((_, tr'), Undef) => (tr', Undef)
    end.

(** ** The functions of [main.cpp] *)

Section Program.

Variable w : World.

(** *** Calls into the libraries, with the event each one performs *)

Definition std_getenv (name : string) : M Trace (option string) :=
  emit (EGetenv name) ;;
  ret (getenv w name).

(** [std::cout << line << std::endl]. *)
Definition cout (line : string) : M Trace unit := emit (EStdout line).

(** [std::cout << e.what() << std::endl]. *)
Definition cout_what (e : exception) : M Trace unit := emit (EStdoutWhat e).

(** [exit(code)]. *)
Definition exit_ {A} (code : Z) : M Trace A := fun tr => (tr, Exit code).

(** Opening an [std::ifstream] on the path and reading the stream to its
    end: a file that cannot be opened reads as the empty string. *)
Definition read_all (path : string) : M Trace string :=
  emit (EReadFile path) ;;
  ret (match file w path with Some contents => contents | None => "" end).

(** A [std::string] built from a [char*], as [Vault::RoleId{roleId}] and
    [Vault::SecretId{secretId}] do with what [getenv] returned: undefined
    for the null pointer. *)
Definition std_string (p : option string) : res string :=
  match p with
  | Some s => Val s
  | None => Undef
  end.

(** [Vault::AppRoleStrategy] over the two identifiers and
    [Vault::Client{config, appRoleStrategy}]. *)
Definition Vault_Client (roleId secretId : string) : M Trace Client :=
  emit (EVaultLogin roleId secretId) ;;
  ret (approle_login w roleId secretId).

(** [Vault::Database{vaultClient}.generateCredentials(path)]. *)
Definition generateCredentials (vaultClient : Client) (path : string)
  : M Trace (option string) :=
  emit (EGenerateCredentials path) ;;
  ret (generate_credentials w vaultClient path).

(** [pqxx::connection{conninfo}]; the result is what [is_open()] gives. *)
Definition pqxx_connection (conninfo : string) : M Trace bool :=
  emit (EDbConnect conninfo) ;;
  pure (of_sum (pq_connect w conninfo)).

(** [ss << port] for an [int]. *)
Definition show_int (n : Z) : string := NilZero.string_of_int (Z.to_int n).

(** *** [DatabaseConfig::withSecrets] *)

Definition withSecrets (vaultClient : Client) : Method DatabaseConfig :=
  self <- this ;;
  secretResponse <- io (generateCredentials vaultClient (secretRole self)) ;;
  match secretResponse with
  | Some body =>
      parsed <- pure (of_sum (json_parse w body)) ;;
      '(_, credentials) <- pure (subscript parsed "data") ;;
      '(credentials, u) <- pure (subscript credentials "username") ;;
      u <- pure (get_string u) ;;
      assign (set_username u) ;;
      '(_, p) <- pure (subscript credentials "password") ;;
      p <- pure (get_string p) ;;
      assign (set_password p) ;;
      this
  | None => this
  end.

(** *** [DatabaseConfig::connectionString] *)

Definition connectionString : Method string :=
  self <- this ;;
  ret ("host=" ++ host self ++ " "
       ++ "port=" ++ show_int (port self) ++ " "
       ++ "user=" ++ username self ++ " "
       ++ "password=" ++ password self ++ " "
       ++ "dbname=" ++ database self)%string.

(** *** [from_json]: the state is the [DatabaseConfig] passed by reference *)

Definition store (f : DatabaseConfig -> DatabaseConfig) : M DatabaseConfig unit :=
  fun c => (f c, Val tt).

Definition from_json (j : json) : M DatabaseConfig unit :=
  v <- pure (at_ j "port") ;;
  n <- pure (get_int v) ;;
  store (set_port n) ;;
  v <- pure (at_ j "host") ;;
  s <- pure (get_string v) ;;
  store (set_host s) ;;
  v <- pure (at_ j "database") ;;
  s <- pure (get_string v) ;;
  store (set_database s) ;;
  v <- pure (at_ j "secret_role") ;;
  s <- pure (get_string v) ;;
  store (set_secretRole s).

(** The conversion of a JSON value to a [DatabaseConfig]
    ([get<DatabaseConfig>()]): [from_json] on a fresh record, which is
    returned only when [from_json] returns. *)
Definition get_DatabaseConfig (j : json) : res DatabaseConfig :=
  match from_json j empty_config with
  | (c, Val _) => Val c
  | (_, Throw e) => Throw e
  | (_, Exit code) => Exit code
  | (_, Undef) => Undef
  end.

(** *** [getDatabaseConfiguration] *)

Definition getDatabaseConfiguration (path : string) : M Trace DatabaseConfig :=
  raw <- read_all path ;;
  parsed <- pure (of_sum (json_parse w raw)) ;;
  '(_, db) <- pure (subscript parsed "database") ;;
  pure (get_DatabaseConfig db).

(** *** [getVaultClient] *)

Definition is_null {A} (p : option A) : bool :=
  match p with
  | None => true
  | Some _ => false
  end.

Definition must_be_set : string :=
  "APPROLE_ROLE_ID and APPROLE_SECRET_ID environment variables must be set".

Definition getVaultClient : M Trace Client :=
  roleId <- std_getenv "APPROLE_ROLE_ID" ;;
  secretId <- std_getenv "APPROLE_SECRET_ID" ;;
  (if is_null roleId && is_null secretId
   then cout must_be_set ;; exit_ (-1)
   else ret tt) ;;
  role <- pure (std_string roleId) ;;
  secret <- pure (std_string secretId) ;;
  Vault_Client role secret.

(** *** [main] *)

(** The body of the [try] block. *)
Definition connect_with_secrets (configPath : string) (vaultClient : Client)
  : M Trace unit :=
  '(_, databaseConfig) <-
     (loaded <- getDatabaseConfiguration configPath ;;
      call loaded (withSecrets vaultClient)) ;;
  '(_, conninfo) <- call databaseConfig connectionString ;;
  databaseConnection <- pqxx_connection conninfo ;;
  if (databaseConnection : bool)
  then cout "Connected"
  else cout "Could not connect".

Definition main : M Trace Z :=
  let configPath := "config.json" in
  vaultClient <- getVaultClient ;;
  (if is_authenticated vaultClient
   then try_catch (connect_with_secrets configPath vaultClient) cout_what
   else cout "Unable to authenticate to Vault") ;;
  ret 0.

End Program.

(** A run of the program from the empty trace. *)
Definition run (w : World) : Trace * res Z := main w [].

(** The exit code the process ends with, when it ends by returning from
    [main] or by [exit]. *)
Definition exit_code (r : res Z) : option Z :=
  match r with
  | Val c => Some c
  | Exit c => Some c
  | Throw _ | Undef => None
  end.

(** ** Concrete worlds *)

Module Scenario.

(** The double quote character, and a JSON string literal. *)
Definition dq : string := String (Ascii.ascii_of_nat 34) "".
Definition lit (s : string) : string := (dq ++ s ++ dq)%string.

(** The text of [config.json] with the given JSON text for the port. *)
Definition config_text (port_text : string) : string :=
  ("{" ++ lit "database" ++ ":{"
   ++ lit "port" ++ ":" ++ port_text ++ ","
   ++ lit "host" ++ ":" ++ lit "db" ++ ","
   ++ lit "database" ++ ":" ++ lit "app" ++ ","
   ++ lit "secret_role" ++ ":" ++ lit "app-role" ++ "}}")%string.

(** The value the parser gives for [config_text]. *)
Definition config_json (port_value : json) : json :=
  JObject [("database",
            JObject [("database", JString "app"); ("host", JString "db");
                     ("port", port_value); ("secret_role", JString "app-role")])].

(** A broker response with both credentials, and one without a password. *)
Definition secret_text : string :=
  ("{" ++ lit "data" ++ ":{" ++ lit "username" ++ ":" ++ lit "u1" ++ ","
   ++ lit "password" ++ ":" ++ lit "p1" ++ "}}")%string.
Definition secret_json : json :=
  JObject [("data", JObject [("password", JString "p1"); ("username", JString "u1")])].

Definition no_password_text : string :=
  ("{" ++ lit "data" ++ ":{" ++ lit "username" ++ ":" ++ lit "u1" ++ "}}")%string.
Definition no_password_json : json :=
  JObject [("data", JObject [("username", JString "u1")])].

(** The parser on the texts above; the empty text and every other text
    count as a syntax error here. *)
Definition parse (text : string) : exception + json :=
  if String.eqb text (config_text "5432") then inr (config_json (JUInt 5432))
  else if String.eqb text (config_text "true") then inr (config_json (JBool true))
  else if String.eqb text secret_text then inr secret_json
  else if String.eqb text no_password_text then inr no_password_json
  else inl (parse_error "syntax error").

Definition env_both (name : string) : option string :=
  if String.eqb name "APPROLE_ROLE_ID" then Some "role-1"
  else if String.eqb name "APPROLE_SECRET_ID" then Some "secret-1"
  else None.


Definition env_none (name : string) : option string := None.

Definition only_config (text : string) (path : string) : option string :=
  if String.eqb path "config.json" then Some text else None.

Definition accepting_db (conninfo : string) : exception + bool := inr true.

Definition refusing_db (conninfo : string) : exception + bool :=
  inl (runtime_error "connection refused").

(** The end-to-end scenario: both variables set, the broker accepts the
    login and issues [u1]/[p1], the database accepts the connection. *)
Definition happy : World :=
  {| getenv := env_both;
     file := only_config (config_text "5432");
     json_parse := parse;
     approle_login := fun _ _ => {| is_authenticated := true |};
     generate_credentials := fun _ _ => Some secret_text;
     pq_connect := accepting_db |}.

(** As [happy], with the listed field replaced. *)
Definition with_env (env : string -> option string) (w : World) : World :=
  {| getenv := env; file := file w; json_parse := json_parse w;
     approle_login := approle_login w;
     generate_credentials := generate_credentials w;
     pq_connect := pq_connect w |}.

Definition with_file (f : string -> option string) (w : World) : World :=
  {| getenv := getenv w; file := f; json_parse := json_parse w;
     approle_login := approle_login w;
     generate_credentials := generate_credentials w;
     pq_connect := pq_connect w |}.

Definition with_login (b : bool) (w : World) : World :=
  {| getenv := getenv w; file := file w; json_parse := json_parse w;
     approle_login := fun _ _ => {| is_authenticated := b |};
     generate_credentials := generate_credentials w;
     pq_connect := pq_connect w |}.

Definition with_secret (r : option string) (w : World) : World :=
  {| getenv := getenv w; file := file w; json_parse := json_parse w;
     approle_login := approle_login w;
     generate_credentials := fun _ _ => r;
     pq_connect := pq_connect w |}.

Definition with_db (db : string -> exception + bool) (w : World) : World :=
  {| getenv := getenv w; file := file w; json_parse := json_parse w;
     approle_login := approle_login w;
     generate_credentials := generate_credentials w;
     pq_connect := db |}.

(** The scenario with the port written as the JSON boolean [true]. *)
Definition boolean_port : World :=
  with_file (only_config (config_text "true")) happy.

End Scenario.

(** ** Reading documents: the vocabulary of the statements *)

(** The member of an object under a key; nothing for other kinds of value. *)
Definition member (key : string) (j : json) : option json :=
  match j with
  | JObject members => find key members
  | _ => None
  end.

(** The value is the JSON integer [p]. *)
Definition integer_value (v : json) (p : Z) : Prop := v = JInt p \/ v = JUInt p.

(** A well-formed configuration document: its [database] object gives an
    integer port that is an [int], and three strings. *)
Definition config_document (doc : json) (p : Z) (h d r : string) : Prop :=
  exists db vp,
    member "database" doc = Some db /\
    member "port" db = Some vp /\ integer_value vp p /\ fits_int p = true /\
    member "host" db = Some (JString h) /\
    member "database" db = Some (JString d) /\
    member "secret_role" db = Some (JString r).

(** A successful credential response: [data.username] and [data.password]
    are strings. *)
Definition credential_response (resp : json) (u pw : string) : Prop :=
  exists data,
    member "data" resp = Some data /\
    member "username" data = Some (JString u) /\
    member "password" data = Some (JString pw).

(** The configuration as the file gives it, before enrichment. *)
Definition loaded_config (p : Z) (h d r : string) : DatabaseConfig :=
  {| port := p; host := h; database := d; secretRole := r;
     username := ""; password := "" |}.

(** The connection string in the form the specification gives. *)
Definition conninfo_text (h : string) (p : Z) (u pw d : string) : string :=
  ("host=" ++ h ++ " port=" ++ show_int p ++ " user=" ++ u
   ++ " password=" ++ pw ++ " dbname=" ++ d)%string.

(** From the configuration file to the connection string: the three calls
    of the [try] block that come before the connection is opened. *)
Definition resolve_conninfo (w : World) (path : string) (vaultClient : Client)
  : M Trace string :=
  loaded <- getDatabaseConfiguration w path ;;
  '(_, databaseConfig) <- call loaded (withSecrets w vaultClient) ;;
  '(_, conninfo) <- call databaseConfig connectionString ;;
  ret conninfo.


(** The string a variable holds when it is set. *)
Definition value_of (p : option string) : string :=
  match p with
  | Some s => s
  | None => ""
  end.

(** The events of [getVaultClient] when both variables are set. *)
Definition bootstrap_events (w : World) : Trace :=
  [EGetenv "APPROLE_ROLE_ID"; EGetenv "APPROLE_SECRET_ID";
   EVaultLogin (value_of (getenv w "APPROLE_ROLE_ID"))
     (value_of (getenv w "APPROLE_SECRET_ID"))].

(** How [getDatabaseConfiguration] ends, apart from the trace. *)
Definition load_result (w : World) (path : string) : res DatabaseConfig :=
  snd (getDatabaseConfiguration w path []).

(** How [withSecrets] ends, and the object it leaves, apart from the trace. *)
Definition enrich_result (w : World) (vaultClient : Client) (c : DatabaseConfig)
  : res DatabaseConfig :=
  snd (withSecrets w vaultClient (c, [])).

Definition enriched_object (w : World) (vaultClient : Client) (c : DatabaseConfig)
  : DatabaseConfig :=
  fst (fst (withSecrets w vaultClient (c, []))).

(** The computation never calls [exit]. *)
Definition never_exits {S A} (m : M S A) : Prop :=
  forall s code, snd (m s) <> Exit code.

(** The client [getVaultClient] builds when both variables are set. *)
Definition login_of (w : World) : Client :=
  approle_login w (value_of (getenv w "APPROLE_ROLE_ID"))
    (value_of (getenv w "APPROLE_SECRET_ID")).

(** ** Vocabulary for traces *)

Definition both_unset (w : World) : Prop :=
  getenv w "APPROLE_ROLE_ID" = None /\ getenv w "APPROLE_SECRET_ID" = None.

Definition both_set (w : World) : Prop :=
  getenv w "APPROLE_ROLE_ID" <> None /\ getenv w "APPROLE_SECRET_ID" <> None.

Definition exactly_one_set (w : World) : Prop :=
  (getenv w "APPROLE_ROLE_ID" = None /\ getenv w "APPROLE_SECRET_ID" <> None) \/
  (getenv w "APPROLE_ROLE_ID" <> None /\ getenv w "APPROLE_SECRET_ID" = None).

(** The events of the Secrets Client Bootstrap: reading an environment
    variable and logging in to the broker. *)
Definition is_bootstrap (ev : event) : bool :=
  match ev with
  | EGetenv _ | EVaultLogin _ _ => true
  | _ => false
  end.

(** The event of the Config Loader. *)
Definition is_config_load (ev : event) : bool :=
  match ev with
  | EReadFile _ => true
  | _ => false
  end.

(** Reaching outside the process for the configuration file, the broker
    or the database. *)
Definition is_attempt (ev : event) : bool :=
  match ev with
  | EVaultLogin _ _ | EReadFile _ | EGenerateCredentials _ | EDbConnect _ => true
  | _ => false
  end.

(** Writing to standard output. *)
Definition is_stdout (ev : event) : bool :=
  match ev with
  | EStdout _ | EStdoutWhat _ => true
  | _ => false
  end.

(** What can follow the configuration read inside the [try] block and its
    handler. *)
Definition is_after_load (ev : event) : bool :=
  match ev with
  | EGenerateCredentials _ | EDbConnect _ | EStdoutWhat _ => true
  | EStdout line => String.eqb line "Connected" || String.eqb line "Could not connect"
  | _ => false
  end.

(** The specification's order of stages, as the overview lists them: every
    bootstrap event of a run has a configuration read before it. *)
Definition config_loader_first (tr : Trace) : Prop :=
  forall before ev after,
    tr = (before ++ ev :: after)%list ->
    is_bootstrap ev = true ->
    exists ev', In ev' before /\ is_config_load ev' = true.

(** ** Vocabulary for configuration inputs *)

(** A JSON integer, the kind the specification gives the port. *)
Definition is_integer (v : json) : bool :=
  match v with
  | JInt _ | JUInt _ => true
  | _ => false
  end.

(** The kinds the conversion to [int] accepts: numbers and booleans. *)
Definition converts_to_int (v : json) : bool :=
  match v with
  | JInt _ | JUInt _ | JFloat _ | JBool _ => true
  | _ => false
  end.

Definition is_string (v : json) : bool :=
  match v with
  | JString _ => true
  | _ => false
  end.

(** The member under [key] is missing, or its value is of a kind [ok]
    rejects. *)
Definition lacks_or_mistypes_key (ok : json -> bool) (key : string) (db : json) : Prop :=
  match member key db with
  | Some v => ok v = false
  | None => True
  end.

(** The database object lacks or mistypes one of the four required keys;
    [port_ok] says which kinds of value are right for the port. *)
Definition lacks_or_mistypes (port_ok : json -> bool) (db : json) : Prop :=
  lacks_or_mistypes_key port_ok "port" db \/
  lacks_or_mistypes_key is_string "host" db \/
  lacks_or_mistypes_key is_string "database" db \/
  lacks_or_mistypes_key is_string "secret_role" db.

(** A floating-point port, if there is one, has an [int] as integer part. *)
Definition port_defined (db : json) : Prop :=
  forall d, member "port" db = Some (JFloat d) -> int_of_double d <> Undef.

(** The three kinds of bad input to configuration loading: a file that
    cannot be opened, a text that is not JSON, a document whose [database]
    object is bad in the sense of [bad_db]. *)
Definition bad_config_input (bad_db : json -> Prop) (w : World) (path : string) : Prop :=
  file w path = None
  \/ (exists raw e, file w path = Some raw /\ json_parse w raw = inl e)
  \/ (exists raw doc db,
        file w path = Some raw /\ json_parse w raw = inr doc /\
        member "database" doc = Some db /\ bad_db db).

(** The parser rejects the empty text, as a JSON parser does. *)
Definition parser_rejects_empty (w : World) : Prop :=
  exists e, json_parse w "" = inl e.

(** Every bad input makes [getDatabaseConfiguration] throw. *)
Definition every_bad_input_raises (bad_db : json -> Prop) : Prop :=
  forall w path tr,
    parser_rejects_empty w ->
    bad_config_input bad_db w path ->
    exists e,
      getDatabaseConfiguration w path tr = ((tr ++ [EReadFile path])%list, Throw e).

(** ** The claims about one unset variable, as they are stated *)




From Stdlib Require DecimalPos DecimalZ.

(** ** Vocabulary for whole runs *)

(** The line the [try] block ends with once the driver has answered. *)
Definition outcome_line (r : exception + bool) : event :=
  match r with
  | inl e => EStdoutWhat e
  | inr true => EStdout "Connected"
  | inr false => EStdout "Could not connect"
  end.

(** The connection string of a configuration. *)
Definition conninfo_of (c : DatabaseConfig) : string :=
  conninfo_text (host c) (port c) (username c) (password c) (database c).

Definition is_getenv (ev : event) : bool :=
  match ev with
  | EGetenv _ => true
  | _ => false
  end.

Definition is_login (ev : event) : bool :=
  match ev with
  | EVaultLogin _ _ => true
  | _ => false
  end.

Definition is_credential_request (ev : event) : bool :=
  match ev with
  | EGenerateCredentials _ => true
  | _ => false
  end.

Definition is_db_connect (ev : event) : bool :=
  match ev with
  | EDbConnect _ => true
  | _ => false
  end.

(** How many events of a kind a trace has. *)
Definition count (kind : event -> bool) (tr : Trace) : nat :=
  length (filter kind tr).

(** The four lines [main.cpp] writes as string literals. *)
Definition fixed_lines : list string :=
  [must_be_set; "Unable to authenticate to Vault"; "Connected"; "Could not connect"].

(** The seven ways a run can go, each with its trace and its outcome. *)
Inductive run_kind (w : World) : Trace * res Z -> Prop :=
| RunGate :
    both_unset w ->
    run_kind w ([EGetenv "APPROLE_ROLE_ID"; EGetenv "APPROLE_SECRET_ID";
                 EStdout must_be_set], Exit (-1))
| RunNullIdentifier :
    exactly_one_set w ->
    run_kind w ([EGetenv "APPROLE_ROLE_ID"; EGetenv "APPROLE_SECRET_ID"], Undef)
| RunUnauthenticated :
    both_set w ->
    is_authenticated (login_of w) = false ->
    run_kind w ((bootstrap_events w
                 ++ [EStdout "Unable to authenticate to Vault"])%list, Val 0)
| RunLoadThrows (e : exception) :
    both_set w ->
    is_authenticated (login_of w) = true ->
    load_result w "config.json" = Throw e ->
    run_kind w ((bootstrap_events w
                 ++ [EReadFile "config.json"; EStdoutWhat e])%list, Val 0)
| RunLoadUndefined :
    both_set w ->
    is_authenticated (login_of w) = true ->
    load_result w "config.json" = Undef ->
    run_kind w ((bootstrap_events w ++ [EReadFile "config.json"])%list, Undef)
| RunEnrichThrows (loaded : DatabaseConfig) (e : exception) :
    both_set w ->
    is_authenticated (login_of w) = true ->
    load_result w "config.json" = Val loaded ->
    enrich_result w (login_of w) loaded = Throw e ->
    run_kind w ((bootstrap_events w
                 ++ [EReadFile "config.json";
                     EGenerateCredentials (secretRole loaded);
                     EStdoutWhat e])%list, Val 0)
| RunConnects (loaded cfg : DatabaseConfig) :
    both_set w ->
    is_authenticated (login_of w) = true ->
    load_result w "config.json" = Val loaded ->
    enrich_result w (login_of w) loaded = Val cfg ->
    run_kind w ((bootstrap_events w
                 ++ [EReadFile "config.json";
                     EGenerateCredentials (secretRole loaded);
                     EDbConnect (conninfo_of cfg);
                     outcome_line (pq_connect w (conninfo_of cfg))])%list, Val 0).

(** Reading a decimal numeral back. *)
Definition read_int (s : string) : option Z :=
  option_map Z.of_int (NilZero.int_of_string s).

(** The four keys [from_json] reads. *)
Definition config_keys : list string := ["port"; "host"; "database"; "secret_role"].

(** ** More concrete worlds *)

Module Variants.

Import Scenario.

(** The configuration of the end-to-end scenario with its members in
    another order and with members nobody asks for. *)
Definition reordered_text : string :=
  ("{" ++ lit "comment" ++ ":" ++ lit "x" ++ ","
   ++ lit "database" ++ ":{"
   ++ lit "secret_role" ++ ":" ++ lit "app-role" ++ ","
   ++ lit "port" ++ ":5432,"
   ++ lit "extra" ++ ":true,"
   ++ lit "host" ++ ":" ++ lit "db" ++ ","
   ++ lit "database" ++ ":" ++ lit "app" ++ "}}")%string.

Definition reordered_members : list (string * json) :=
  [("database", JString "app"); ("extra", JBool true); ("host", JString "db");
   ("port", JUInt 5432); ("secret_role", JString "app-role")].

Definition reordered_top : list (string * json) :=
  [("comment", JString "x"); ("database", JObject reordered_members)].

(** 2^32 + 5432 as an integer port, and 2^40 as a floating-point port
    (the double with mantissa 2^52 and exponent -12). *)
Definition big_port_text : string := config_text "4294972728".
Definition float_port_text : string := config_text "1099511627776.0".

(** 5432.5 as a floating-point port (mantissa 5973096917893120, exponent
    -40). *)
Definition half_port_text : string := config_text "5432.5".

(** The parser of [Scenario], extended to the texts above. *)
Definition parse (text : string) : exception + json :=
  if String.eqb text reordered_text then inr (JObject reordered_top)
  else if String.eqb text big_port_text then inr (config_json (JUInt 4294972728))
  else if String.eqb text float_port_text
       then inr (config_json (JFloat (S754_finite false 4503599627370496 (-12))))
  else if String.eqb text half_port_text
       then inr (config_json (JFloat (S754_finite false 5973096917893120 (-40))))
  else Scenario.parse text.

Definition with_config (text : string) : World :=
  {| getenv := env_both;
     file := only_config text;
     json_parse := parse;
     approle_login := fun _ _ => {| is_authenticated := true |};
     generate_credentials := fun _ _ => Some secret_text;
     pq_connect := accepting_db |}.

Definition reordered : World := with_config reordered_text.
Definition big_port : World := with_config big_port_text.
Definition float_port : World := with_config float_port_text.
Definition half_port : World := with_config half_port_text.

(** Both variables set, to the empty string. *)
Definition env_empty (name : string) : option string :=
  if String.eqb name "APPROLE_ROLE_ID" then Some ""
  else if String.eqb name "APPROLE_SECRET_ID" then Some ""
  else None.

End Variants.

(** ** Facts about the JSON accessors *)

Lemma subscript_member (j : json) (key : string) (v : json) :
  member key j = Some v -> subscript j key = Val (j, v).
Proof.
  destruct j; simpl; try discriminate.
  intros ->. reflexivity.
Qed.

Lemma at_member (j : json) (key : string) (v : json) :
  member key j = Some v -> at_ j key = Val v.
Proof.
  destruct j; simpl; try discriminate.
  intros ->. reflexivity.
Qed.

Lemma int_of_Z_fits (p : Z) : fits_int p = true -> int_of_Z p = p.
Proof.
  unfold fits_int, int_of_Z. intros H.
  apply andb_true_iff in H. destruct H as [Hlo Hhi].
  apply Z.leb_le in Hlo. apply Z.ltb_lt in Hhi.
  rewrite Z.mod_small; lia.
Qed.

Lemma get_int_integer (v : json) (p : Z) :
  integer_value v p -> fits_int p = true -> get_int v = Val p.
Proof.
  intros [-> | ->] Hfit; simpl; rewrite int_of_Z_fits; auto.
Qed.

(** ** Running the member functions *)

Ltac run_prog :=
  unfold bind, ret, pure, this, assign, io, call, emit, store, of_sum; simpl.

Lemma from_json_well_formed (db vp : json) (p : Z) (h d r : string) (c : DatabaseConfig) :
  member "port" db = Some vp -> integer_value vp p -> fits_int p = true ->
  member "host" db = Some (JString h) ->
  member "database" db = Some (JString d) ->
  member "secret_role" db = Some (JString r) ->
  from_json db c =
    ({| port := p; host := h; database := d; secretRole := r;
        username := username c; password := password c |}, Val tt).
Proof.
  intros Hp Hint Hfit Hh Hd Hr.
  unfold from_json. run_prog.
  rewrite (at_member _ _ _ Hp), (get_int_integer _ _ Hint Hfit).
  rewrite (at_member _ _ _ Hh), (at_member _ _ _ Hd), (at_member _ _ _ Hr).
  reflexivity.
Qed.

Lemma getDatabaseConfiguration_well_formed
  (w : World) (path raw : string) (doc : json) (p : Z) (h d r : string) (tr : Trace) :
  file w path = Some raw ->
  json_parse w raw = inr doc ->
  config_document doc p h d r ->
  getDatabaseConfiguration w path tr
  = ((tr ++ [EReadFile path])%list, Val (loaded_config p h d r)).
Proof.
  intros Hfile Hparse (db & vp & Hdb & Hp & Hint & Hfit & Hh & Hd & Hr).
  unfold getDatabaseConfiguration, read_all. run_prog.
  rewrite Hfile, Hparse, (subscript_member _ _ _ Hdb).
  unfold get_DatabaseConfig.
  rewrite (from_json_well_formed db vp p h d r empty_config) by assumption.
  reflexivity.
Qed.

Lemma withSecrets_success
  (w : World) (vaultClient : Client) (c : DatabaseConfig)
  (body : string) (resp : json) (u pw : string) (tr : Trace) :
  generate_credentials w vaultClient (secretRole c) = Some body ->
  json_parse w body = inr resp ->
  credential_response resp u pw ->
  withSecrets w vaultClient (c, tr)
  = ((set_password pw (set_username u c),
      (tr ++ [EGenerateCredentials (secretRole c)])%list),
     Val (set_password pw (set_username u c))).
Proof.
  intros Hgen Hparse (data & Hdata & Hu & Hpw).
  unfold withSecrets, generateCredentials. run_prog.
  rewrite Hgen, Hparse, (subscript_member _ _ _ Hdata).
  rewrite (subscript_member _ _ _ Hu). simpl.
  rewrite (subscript_member _ _ _ Hpw). reflexivity.
Qed.

(** ** Running [main] *)

Lemma getVaultClient_gate (w : World) (tr : Trace) :
  getenv w "APPROLE_ROLE_ID" = None ->
  getenv w "APPROLE_SECRET_ID" = None ->
  getVaultClient w tr
  = ((tr ++ [EGetenv "APPROLE_ROLE_ID"; EGetenv "APPROLE_SECRET_ID";
             EStdout must_be_set])%list, Exit (-1)).
Proof.
  intros Hr Hs. unfold getVaultClient, std_getenv, cout, exit_. run_prog.
  rewrite Hr, Hs. simpl. rewrite <- !app_assoc. reflexivity.
Qed.

(** The three states of the environment. *)
Lemma env_cases (w : World) : both_unset w \/ exactly_one_set w \/ both_set w.
Proof.
  unfold both_unset, exactly_one_set, both_set.
  destruct (getenv w "APPROLE_ROLE_ID"), (getenv w "APPROLE_SECRET_ID").
  - right. right. split; discriminate.
  - right. left. right. split; [discriminate | reflexivity].
  - right. left. left. split; [reflexivity | discriminate].
  - left. split; reflexivity.
Qed.

Lemma both_set_not_unset (w : World) : both_set w -> ~ both_unset w.
Proof. intros [Hr _] [Hr' _]. contradiction. Qed.

Lemma both_set_not_one (w : World) : both_set w -> ~ exactly_one_set w.
Proof. intros [Hr Hs] [[Hr' _] | [_ Hs']]; contradiction. Qed.

Lemma one_set_not_unset (w : World) : exactly_one_set w -> ~ both_unset w.
Proof. intros [[_ Hs] | [Hr _]] [Hr' Hs']; contradiction. Qed.

Lemma getVaultClient_login (w : World) (tr : Trace) :
  both_set w ->
  getVaultClient w tr = ((tr ++ bootstrap_events w)%list, Val (login_of w)).
Proof.
  intros [Hr Hs].
  unfold getVaultClient, std_getenv, Vault_Client, bootstrap_events, login_of. run_prog.
  destruct (getenv w "APPROLE_ROLE_ID") as [r |]; [| contradiction].
  destruct (getenv w "APPROLE_SECRET_ID") as [s |]; [| contradiction].
  simpl. rewrite <- !app_assoc. reflexivity.
Qed.

(** With one variable unset the gate is passed and an identifier is built
    from the null pointer. *)
Lemma getVaultClient_null (w : World) (tr : Trace) :
  exactly_one_set w ->
  getVaultClient w tr
  = ((tr ++ [EGetenv "APPROLE_ROLE_ID"; EGetenv "APPROLE_SECRET_ID"])%list, Undef).
Proof.
  unfold getVaultClient, std_getenv, Vault_Client. run_prog.
  intros [[Hr Hs] | [Hr Hs]].
  - rewrite Hr. destruct (getenv w "APPROLE_SECRET_ID") as [s |]; [| contradiction].
    simpl. rewrite <- !app_assoc. reflexivity.
  - rewrite Hs. destruct (getenv w "APPROLE_ROLE_ID") as [r |]; [| contradiction].
    simpl. rewrite <- !app_assoc. reflexivity.
Qed.

Lemma getDatabaseConfiguration_trace (w : World) (path : string) (tr : Trace) :
  getDatabaseConfiguration w path tr
  = ((tr ++ [EReadFile path])%list, load_result w path).
Proof.
  unfold load_result, getDatabaseConfiguration, read_all. run_prog.
  destruct (json_parse w _) as [e | parsed]; simpl; [reflexivity |].
  destruct (subscript parsed "database") as [[? db] | | |]; reflexivity.
Qed.

Lemma withSecrets_trace (w : World) (vaultClient : Client) (c : DatabaseConfig) (tr : Trace) :
  withSecrets w vaultClient (c, tr)
  = ((enriched_object w vaultClient c,
      (tr ++ [EGenerateCredentials (secretRole c)])%list),
     enrich_result w vaultClient c).
Proof.
  unfold enriched_object, enrich_result, withSecrets, generateCredentials. run_prog.
  destruct (generate_credentials w vaultClient (secretRole c)) as [body |];
    [| reflexivity].
  destruct (json_parse w body) as [e | parsed]; simpl; [reflexivity |].
  destruct (subscript parsed "data") as [[? credentials] | | |]; [| reflexivity ..].
  destruct (subscript credentials "username") as [[credentials' ju] | | |];
    [| reflexivity ..].
  destruct (get_string ju) as [u | | |]; [| reflexivity ..].
  destruct (subscript credentials' "password") as [[? jp] | | |]; [| reflexivity ..].
  destruct (get_string jp) as [pw | | |]; reflexivity.
Qed.

Lemma connectionString_run (c : DatabaseConfig) (tr : Trace) :
  connectionString (c, tr)
  = ((c, tr),
     Val (conninfo_text (host c) (port c) (username c) (password c) (database c))).
Proof. reflexivity. Qed.

(** Library calls return or throw (or are undefined); none of them ends
    the process. *)
Lemma subscript_no_exit (j : json) (key : string) (code : Z) :
  subscript j key <> Exit code.
Proof. destruct j; simpl; try discriminate. destruct (find key members); discriminate. Qed.

Lemma at_no_exit (j : json) (key : string) (code : Z) : at_ j key <> Exit code.
Proof. destruct j; simpl; try discriminate. destruct (find key members); discriminate. Qed.

Lemma get_string_no_exit (v : json) (code : Z) : get_string v <> Exit code.
Proof. destruct v; discriminate. Qed.

Lemma get_string_defined (v : json) : get_string v <> Undef.
Proof. destruct v; discriminate. Qed.

Lemma subscript_defined (j : json) (key : string) : subscript j key <> Undef.
Proof. destruct j; simpl; try discriminate. destruct (find key members); discriminate. Qed.

Lemma get_int_no_exit (v : json) (code : Z) : get_int v <> Exit code.
Proof.
  destruct v; simpl; try discriminate.
  unfold int_of_double. destruct (truncate d); [destruct (fits_int z) |]; discriminate.
Qed.

Lemma of_sum_no_exit {A} (r : exception + A) (code : Z) : of_sum r <> Exit code.
Proof. destruct r; discriminate. Qed.

Lemma never_exits_ret {S A} (a : A) : never_exits (@ret S A a).
Proof. intros s code. discriminate. Qed.

Lemma never_exits_pure {S A} (r : res A) :
  (forall code, r <> Exit code) -> never_exits (@pure S A r).
Proof. intros H s code. apply H. Qed.

Lemma never_exits_store (f : DatabaseConfig -> DatabaseConfig) : never_exits (store f).
Proof. intros s code. discriminate. Qed.

Lemma never_exits_bind {S A B} (m : M S A) (k : A -> M S B) :
  never_exits m -> (forall a, never_exits (k a)) -> never_exits (bind m k).
Proof.
  intros Hm Hk s code. unfold bind.
  specialize (Hm s). destruct (m s) as [s' [a | e | c | ]]; simpl in *.
  - apply Hk.
  - discriminate.
  - exfalso. exact (Hm c eq_refl).
  - discriminate.
Qed.

Create HintDb no_exit.
#[local] Hint Resolve never_exits_ret never_exits_pure never_exits_store
  subscript_no_exit at_no_exit get_string_no_exit get_int_no_exit
  of_sum_no_exit : no_exit.

Ltac no_exit_step :=
  first [ apply never_exits_bind; [| intros ? ]
        | solve [ auto with no_exit ] ].

Lemma from_json_no_exit (j : json) : never_exits (from_json j).
Proof. unfold from_json. repeat no_exit_step. Qed.

Lemma get_DatabaseConfig_no_exit (j : json) (code : Z) :
  get_DatabaseConfig j <> Exit code.
Proof.
  unfold get_DatabaseConfig.
  pose proof (from_json_no_exit j empty_config) as H.
  destruct (from_json j empty_config) as [c [[] | e | c' | ]]; simpl in H;
    try discriminate.
  exfalso. exact (H c' eq_refl).
Qed.

Lemma load_result_no_exit (w : World) (path : string) (code : Z) :
  load_result w path <> Exit code.
Proof.
  unfold load_result, getDatabaseConfiguration, read_all. run_prog.
  destruct (json_parse w _) as [e | parsed]; simpl; [discriminate |].
  pose proof (subscript_no_exit parsed "database") as Hs.
  destruct (subscript parsed "database") as [[? db] | e | c | ]; simpl;
    try discriminate.
  - apply get_DatabaseConfig_no_exit.
  - exfalso. exact (Hs c eq_refl).
Qed.

(** [withSecrets] returns the object it leaves behind, or throws. *)
Lemma enrich_result_cases (w : World) (vaultClient : Client) (c : DatabaseConfig) :
  enrich_result w vaultClient c = Val (enriched_object w vaultClient c) \/
  exists e, enrich_result w vaultClient c = Throw e.
Proof.
  unfold enriched_object, enrich_result, withSecrets, generateCredentials. run_prog.
  destruct (generate_credentials w vaultClient (secretRole c)) as [body |];
    [| left; reflexivity].
  destruct (json_parse w body) as [e | parsed]; simpl; [right; eexists; reflexivity |].
  pose proof (subscript_no_exit parsed "data") as X1.
  pose proof (subscript_defined parsed "data") as Y1.
  destruct (subscript parsed "data") as [[? credentials] | | |];
    [| right; eexists; reflexivity | exfalso; eapply X1; eauto | congruence ].
  pose proof (subscript_no_exit credentials "username") as X2.
  pose proof (subscript_defined credentials "username") as Y2.
  destruct (subscript credentials "username") as [[credentials' ju] | | |];
    [| right; eexists; reflexivity | exfalso; eapply X2; eauto | congruence ].
  pose proof (get_string_no_exit ju) as X3.
  pose proof (get_string_defined ju) as Y3.
  destruct (get_string ju) as [u | | |];
    [| right; eexists; reflexivity | exfalso; eapply X3; eauto | congruence ].
  pose proof (subscript_no_exit credentials' "password") as X4.
  pose proof (subscript_defined credentials' "password") as Y4.
  destruct (subscript credentials' "password") as [[? jp] | | |];
    [| right; eexists; reflexivity | exfalso; eapply X4; eauto | congruence ].
  pose proof (get_string_no_exit jp) as X5.
  pose proof (get_string_defined jp) as Y5.
  destruct (get_string jp) as [pw | | |];
    [ left; reflexivity | right; eexists; reflexivity | exfalso; eapply X5; eauto | congruence ].
Qed.

Lemma connect_with_secrets_run
  (w : World) (path : string) (vaultClient : Client) (tr : Trace) :
  connect_with_secrets w path vaultClient tr
  = match load_result w path with
    | Val loaded =>
        let tr1 := (tr ++ [EReadFile path; EGenerateCredentials (secretRole loaded)])%list in
        match enrich_result w vaultClient loaded with
        | Val cfg =>
            let s := conninfo_text (host cfg) (port cfg) (username cfg)
                       (password cfg) (database cfg) in
            match pq_connect w s with
            | inl e => ((tr1 ++ [EDbConnect s])%list, Throw e)
            | inr true => ((tr1 ++ [EDbConnect s; EStdout "Connected"])%list, Val tt)
            | inr false =>
                ((tr1 ++ [EDbConnect s; EStdout "Could not connect"])%list, Val tt)
            end
        | Throw e => (tr1, Throw e)
        | Exit code => (tr1, Exit code)
        | Undef => (tr1, Undef)
        end
    | Throw e => ((tr ++ [EReadFile path])%list, Throw e)
    | Exit code => ((tr ++ [EReadFile path])%list, Exit code)
    | Undef => ((tr ++ [EReadFile path])%list, Undef)
    end.
Proof.
  unfold connect_with_secrets.
  unfold bind at 1. unfold bind at 1.
  rewrite getDatabaseConfiguration_trace.
  destruct (load_result w path) as [loaded | e | code | ]; try reflexivity.
  unfold call at 1. rewrite withSecrets_trace.
  destruct (enrich_result w vaultClient loaded) as [cfg | e | code | ];
    cbv zeta; rewrite <- ?app_assoc; try reflexivity.
  unfold bind at 1, call at 1. rewrite connectionString_run.
  unfold pqxx_connection, cout. run_prog.
  destruct (pq_connect w _) as [e | [|]]; simpl;
    rewrite <- ?app_assoc; reflexivity.
Qed.

Lemma run_gate (w : World) :
  getenv w "APPROLE_ROLE_ID" = None ->
  getenv w "APPROLE_SECRET_ID" = None ->
  run w = ([EGetenv "APPROLE_ROLE_ID"; EGetenv "APPROLE_SECRET_ID";
            EStdout must_be_set], Exit (-1)).
Proof.
  intros Hr Hs. unfold run, main, bind at 1.
  rewrite (getVaultClient_gate w [] Hr Hs). reflexivity.
Qed.

Lemma run_null (w : World) :
  exactly_one_set w ->
  run w = ([EGetenv "APPROLE_ROLE_ID"; EGetenv "APPROLE_SECRET_ID"], Undef).
Proof.
  intros Hone. unfold run, main, bind at 1.
  rewrite (getVaultClient_null w [] Hone). reflexivity.
Qed.

Lemma run_unauthenticated (w : World) :
  both_set w ->
  is_authenticated (login_of w) = false ->
  run w = ((bootstrap_events w ++ [EStdout "Unable to authenticate to Vault"])%list,
           Val 0).
Proof.
  intros Hgate Hauth. unfold run, main, bind at 1.
  rewrite (getVaultClient_login w [] Hgate).
  rewrite Hauth. reflexivity.
Qed.

Lemma run_authenticated (w : World) :
  both_set w ->
  is_authenticated (login_of w) = true ->
  run w
  = match connect_with_secrets w "config.json" (login_of w) (bootstrap_events w) with
    | (tr, Val _) => (tr, Val 0)
    | (tr, Throw e) => ((tr ++ [EStdoutWhat e])%list, Val 0)
    | (tr, Exit code) => (tr, Exit code)
    | (tr, Undef) => (tr, Undef)
    end.
Proof.
  intros Hgate Hauth. unfold run, main, bind at 1.
  rewrite (getVaultClient_login w [] Hgate).
  rewrite Hauth. unfold bind, try_catch, cout_what, emit, ret. simpl.
  destruct (connect_with_secrets w "config.json" (login_of w) (bootstrap_events w))
    as [tr [[] | e | code | ]]; reflexivity.
Qed.

(** The four shapes of a run. *)
Lemma run_shape (w : World) :
  (both_unset w /\
   run w = ([EGetenv "APPROLE_ROLE_ID"; EGetenv "APPROLE_SECRET_ID";
             EStdout must_be_set], Exit (-1))) \/
  (exactly_one_set w /\
   run w = ([EGetenv "APPROLE_ROLE_ID"; EGetenv "APPROLE_SECRET_ID"], Undef)) \/
  (both_set w /\ is_authenticated (login_of w) = false /\
   run w = ((bootstrap_events w ++ [EStdout "Unable to authenticate to Vault"])%list,
            Val 0)) \/
  (both_set w /\ is_authenticated (login_of w) = true /\
   exists rest result,
     run w = ((bootstrap_events w ++ EReadFile "config.json" :: rest)%list, result) /\
     Forall (fun ev => is_after_load ev = true) rest /\
     (result = Val 0 \/ result = Undef)).
Proof.
  destruct (env_cases w) as [Hb | [Hone | Hset]].
  - left. split; [exact Hb |]. destruct Hb. apply run_gate; assumption.
  - right. left. split; [exact Hone |]. apply run_null. exact Hone.
  - right. right. destruct (is_authenticated (login_of w)) eqn:Hauth.
    + right. split; [exact Hset |]. split; [reflexivity |].
      rewrite (run_authenticated w Hset Hauth), connect_with_secrets_run.
      pose proof (load_result_no_exit w "config.json") as Hload.
      destruct (load_result w "config.json") as [loaded | e | c | ].
      * destruct (enrich_result_cases w (login_of w) loaded) as [-> | [e ->]]; cbv zeta.
        -- destruct (pq_connect w _) as [e | [|]];
             rewrite <- ?app_assoc; simpl; eexists; eexists;
             (split; [reflexivity | split; [repeat constructor | auto]]).
        -- rewrite <- ?app_assoc; simpl. eexists; eexists.
           split; [reflexivity | split; [repeat constructor | auto]].
      * rewrite <- ?app_assoc; simpl. eexists; eexists.
        split; [reflexivity | split; [repeat constructor | auto]].
      * exfalso. exact (Hload c eq_refl).
      * exists [], Undef. split; [reflexivity | split; [constructor | auto]].
    + left. split; [exact Hset |]. split; [reflexivity |].
      apply run_unauthenticated; assumption.
Qed.

Lemma withSecrets_absent_response_run
  (w : World) (vaultClient : Client) (c : DatabaseConfig) (tr : Trace) :
  generate_credentials w vaultClient (secretRole c) = None ->
  withSecrets w vaultClient (c, tr)
  = ((c, (tr ++ [EGenerateCredentials (secretRole c)])%list), Val c).
Proof.
  intros Hgen. unfold withSecrets, generateCredentials. run_prog.
  rewrite Hgen. reflexivity.
Qed.

Lemma enriched_object_frame (w : World) (vaultClient : Client) (c : DatabaseConfig) :
  port (enriched_object w vaultClient c) = port c /\
  host (enriched_object w vaultClient c) = host c /\
  database (enriched_object w vaultClient c) = database c /\
  secretRole (enriched_object w vaultClient c) = secretRole c.
Proof.
  unfold enriched_object, withSecrets, generateCredentials. run_prog.
  destruct (generate_credentials w vaultClient (secretRole c)) as [body |];
    [| simpl; auto].
  destruct (json_parse w body) as [e | parsed]; simpl; [auto |].
  destruct (subscript parsed "data") as [[? credentials] | | |]; simpl; auto.
  destruct (subscript credentials "username") as [[credentials' ju] | | |];
    simpl; auto.
  destruct (get_string ju) as [u | | |]; simpl; auto.
  destruct (subscript credentials' "password") as [[? jp] | | |]; simpl; auto.
  destruct (get_string jp) as [pw | | |]; simpl; auto.
Qed.

(** A malformed configuration text, or a configuration file that cannot be
    opened and so reads as the empty text, makes [getDatabaseConfiguration]
    throw what the parser throws. *)
Lemma load_result_parse_error (w : World) (path : string) (e : exception) :
  json_parse w (match file w path with Some contents => contents | None => "" end)
  = inl e ->
  load_result w path = Throw e.
Proof.
  intros H. unfold load_result, getDatabaseConfiguration, read_all. run_prog.
  rewrite H. reflexivity.
Qed.

(** Membership in a concrete trace, by cases. *)
Ltac in_trace H :=
  simpl in H; rewrite ?in_app_iff in H; simpl in H;
  repeat match type of H with
         | _ \/ _ => destruct H as [H | H]
         end;
  try discriminate H; try contradiction.

(** A run that reaches the database: the only connection event carries the
    connection string of the enriched configuration, and what follows is
    decided by the driver. *)
Lemma run_with_connection (w : World) (conninfo : string) :
  In (EDbConnect conninfo) (fst (run w)) ->
  exists tr,
    run w = ((tr ++ EDbConnect conninfo
                 :: match pq_connect w conninfo with
                    | inl e => [EStdoutWhat e]
                    | inr true => [EStdout "Connected"]
                    | inr false => [EStdout "Could not connect"]
                    end)%list, Val 0)
    /\ exists loaded cfg,
         load_result w "config.json" = Val loaded /\
         enrich_result w (login_of w) loaded = Val cfg /\
         conninfo = conninfo_text (host cfg) (port cfg) (username cfg)
                      (password cfg) (database cfg).
Proof.
  intros Hin.
  destruct (env_cases w) as [[Hr Hs] | [Hone | Hgate]].
  { rewrite (run_gate w Hr Hs) in Hin. in_trace Hin. }
  { rewrite (run_null w Hone) in Hin. in_trace Hin. }
  destruct (is_authenticated (login_of w)) eqn:Hauth.
  2:{ rewrite (run_unauthenticated w Hgate Hauth) in Hin. in_trace Hin. }
  rewrite (run_authenticated w Hgate Hauth), connect_with_secrets_run in Hin |- *.
  destruct (load_result w "config.json") as [loaded | e' | c | ] eqn:Hl;
    [| in_trace Hin ..].
  destruct (enrich_result w (login_of w) loaded) as [cfg | e' | c | ] eqn:He;
    cbv zeta in Hin |- *; [| in_trace Hin ..].
  exists (bootstrap_events w
            ++ [EReadFile "config.json"; EGenerateCredentials (secretRole loaded)])%list.
  destruct (pq_connect w (conninfo_text _ _ _ _ _)) as [e' | [|]] eqn:Hpq;
    in_trace Hin; injection Hin as Hin; rewrite <- Hin, Hpq;
    (split; [rewrite <- !app_assoc; reflexivity |]);
    exists loaded, cfg; repeat split; assumption || reflexivity.
Qed.

(** ** Configuration loading on bad inputs *)

Lemma from_json_throws (db : json) (c : DatabaseConfig) :
  lacks_or_mistypes converts_to_int db ->
  port_defined db ->
  exists e, snd (from_json db c) = Throw e.
Proof.
  intros Hbad Hdef. unfold from_json. run_prog.
  destruct db; simpl; try (eexists; reflexivity).
  unfold lacks_or_mistypes, lacks_or_mistypes_key, port_defined in *.
  simpl in Hbad, Hdef.
  destruct (find "port" members) as [vp |]; simpl; [| eexists; reflexivity].
  assert (Hport : (exists e, get_int vp = Throw e /\ converts_to_int vp = false) \/
                  (exists n, get_int vp = Val n /\ converts_to_int vp = true)).
  { destruct vp; simpl; try (left; eexists; split; reflexivity);
      try (right; eexists; split; reflexivity).
    specialize (Hdef d eq_refl). unfold int_of_double in *.
    destruct (truncate d); [destruct (fits_int z) |]; try congruence.
    right; eexists; split; reflexivity. }
  destruct Hport as [(e & -> & _) | (n & -> & Hok)]; simpl; [eexists; reflexivity |].
  destruct Hbad as [Hbad | Hbad]; [congruence |].
  destruct (find "host" members) as [vh |]; simpl; [| eexists; reflexivity].
  destruct vh; simpl; try (eexists; reflexivity).
  destruct Hbad as [Hbad | Hbad]; [discriminate |].
  destruct (find "database" members) as [vd |]; simpl; [| eexists; reflexivity].
  destruct vd; simpl; try (eexists; reflexivity).
  destruct Hbad as [Hbad | Hbad]; [discriminate |].
  destruct (find "secret_role" members) as [vr |]; simpl; [| eexists; reflexivity].
  destruct vr; simpl; try (eexists; reflexivity).
  discriminate.
Qed.

Lemma from_json_returns (db : json) (c c' : DatabaseConfig) :
  from_json db c = (c', Val tt) ->
  exists vp,
    member "port" db = Some vp /\ get_int vp = Val (port c') /\
    member "host" db = Some (JString (host c')) /\
    member "database" db = Some (JString (database c')) /\
    member "secret_role" db = Some (JString (secretRole c')) /\
    username c' = username c /\ password c' = password c.
Proof.
  unfold from_json. run_prog.
  destruct db; simpl; try discriminate.
  destruct (find "port" members) as [vp |]; simpl; [| discriminate].
  destruct (get_int vp) as [n | | |] eqn:Hn; simpl; try discriminate.
  destruct (find "host" members) as [vh |]; simpl; [| discriminate].
  destruct vh; simpl; try discriminate.
  destruct (find "database" members) as [vd |]; simpl; [| discriminate].
  destruct vd; simpl; try discriminate.
  destruct (find "secret_role" members) as [vr |]; simpl; [| discriminate].
  destruct vr; simpl; try discriminate.
  intros H. injection H as <-. simpl.
  exists vp. repeat split; auto.
Qed.

(** ** The claims *)

(** C1.  For a configuration loaded from a well-formed file (host [h], port
    [p], database [d]) and enriched from a successful broker response
    (username [u], password [pw]), [connectionString] returns exactly
    [host=<h> port=<p> user=<u> password=<pw> dbname=<d>], and that is the
    string the [try] block hands to the database driver. *)
Theorem connectionString_exact
  (w : World) (vaultClient : Client) (path raw : string) (doc : json)
  (p : Z) (h d r : string) (body : string) (resp : json) (u pw : string)
  (tr : Trace) :
  file w path = Some raw ->
  json_parse w raw = inr doc ->
  config_document doc p h d r ->
  generate_credentials w vaultClient r = Some body ->
  json_parse w body = inr resp ->
  credential_response resp u pw ->
  resolve_conninfo w path vaultClient tr
  = ((tr ++ [EReadFile path; EGenerateCredentials r])%list,
     Val (conninfo_text h p u pw d))
  /\ exists tr' result,
       connect_with_secrets w path vaultClient tr
       = ((tr ++ [EReadFile path; EGenerateCredentials r;
                  EDbConnect (conninfo_text h p u pw d)] ++ tr')%list, result).
Proof.
  intros Hfile Hparse Hdoc Hgen Hbody Hresp.
  pose proof (getDatabaseConfiguration_well_formed w path raw doc p h d r tr
                Hfile Hparse Hdoc) as Hload.
  pose proof (withSecrets_success w vaultClient (loaded_config p h d r)
                body resp u pw (tr ++ [EReadFile path])%list Hgen Hbody Hresp) as Hsec.
  split.
  - unfold resolve_conninfo, bind at 1. rewrite Hload.
    unfold bind at 1, call at 1. rewrite Hsec.
    unfold connectionString. run_prog.
    rewrite <- app_assoc. reflexivity.
  - unfold connect_with_secrets.
    unfold bind at 1. unfold bind at 1. rewrite Hload.
    unfold call at 1. rewrite Hsec.
    unfold connectionString, pqxx_connection. run_prog.
    destruct (pq_connect w _) as [e | [|]]; unfold cout, emit; simpl;
      [ exists [] | exists [EStdout "Connected"] | exists [EStdout "Could not connect"] ];
      eexists; rewrite <- !app_assoc; reflexivity.
Qed.

(** C2.  When the broker gives no response, [withSecrets] returns the
    configuration it was called on, the object itself is unchanged, and no
    exception is raised. *)
Theorem withSecrets_absent_response
  (w : World) (vaultClient : Client) (c : DatabaseConfig) (tr : Trace) :
  generate_credentials w vaultClient (secretRole c) = None ->
  withSecrets w vaultClient (c, tr)
  = ((c, (tr ++ [EGenerateCredentials (secretRole c)])%list), Val c).
Proof.
  intros Hgen. unfold withSecrets, generateCredentials. run_prog.
  rewrite Hgen. reflexivity.
Qed.

(** C3.  When both [APPROLE_ROLE_ID] and [APPROLE_SECRET_ID] are unset, the
    run consists of the two environment reads and the fixed diagnostic
    line, and ends in [exit(-1)]: a non-zero exit code, with no configuration
    read, no broker login and no database connection attempted. *)
Theorem both_unset_exits_at_once (w : World) :
  both_unset w ->
  run w = ([EGetenv "APPROLE_ROLE_ID"; EGetenv "APPROLE_SECRET_ID";
            EStdout must_be_set], Exit (-1))
  /\ (exists code, exit_code (snd (run w)) = Some code /\ code <> 0)
  /\ Forall (fun ev => is_attempt ev = false) (fst (run w)).
Proof.
  intros [Hr Hs]. rewrite (run_gate w Hr Hs). simpl.
  split; [reflexivity |]. split.
  - exists (-1). split; [reflexivity | lia].
  - repeat constructor.
Qed.



(** C5.  When the client, built from the two variables, is not
    authenticated, the run is the bootstrap followed by the line [Unable to authenticate to Vault] and nothing else:
    the configuration file is not read, no credentials are requested, no
    connection is attempted, and [main] returns 0. *)
Theorem unauthenticated_stops (w : World) :
  both_set w ->
  is_authenticated (login_of w) = false ->
  run w = ((bootstrap_events w ++ [EStdout "Unable to authenticate to Vault"])%list,
           Val 0)
  /\ exit_code (snd (run w)) = Some 0
  /\ (forall ev, In ev (fst (run w)) ->
        match ev with
        | EReadFile _ | EGenerateCredentials _ | EDbConnect _ => False
        | _ => True
        end).
Proof.
  intros Hb Hauth.
  rewrite (run_unauthenticated w Hb Hauth).
  split; [reflexivity |]. split; [reflexivity |].
  simpl. intros ev [<- | [<- | [<- | [<- | []]]]]; exact I.
Qed.



(** C7, as stated, fails: a configuration whose port is the JSON boolean
    [true], which is not an integer, is loaded without any error, with
    port 1. *)
Lemma boolean_port_is_accepted :
  bad_config_input (lacks_or_mistypes is_integer) Scenario.boolean_port "config.json"
  /\ getDatabaseConfiguration Scenario.boolean_port "config.json" []
     = ([EReadFile "config.json"], Val (loaded_config 1 "db" "app" "app-role"))
  /\ ~ every_bad_input_raises (lacks_or_mistypes is_integer).
Proof.
  assert (Hbad : bad_config_input (lacks_or_mistypes is_integer)
                   Scenario.boolean_port "config.json").
  { right. right.
    exists (Scenario.config_text "true"), (Scenario.config_json (JBool true)).
    eexists. split; [reflexivity |]. split; [reflexivity |].
    split; [reflexivity |]. left. reflexivity. }
  split; [exact Hbad |]. split; [reflexivity |].
  intros H.
  destruct (H Scenario.boolean_port "config.json" []) as [e He].
  - exists (parse_error "syntax error"). reflexivity.
  - exact Hbad.
  - discriminate He.
Qed.

(** C7, amended.  A missing file, malformed JSON, or a [database] object
    that lacks one of [port], [host], [database], [secret_role], or gives
    [host], [database] or [secret_role] a value that is not a string, or
    gives [port] a value that is neither a number nor a boolean, makes
    [getDatabaseConfiguration] throw (a floating-point port being one whose
    integer part is an [int]).  When it returns, every field comes from the
    member of that name in the file and the credentials are empty: no
    default stands in for a missing key.  In a run the exception reaches the
    handler of [main]. *)
Theorem bad_config_raises (w : World) (path : string) (tr : Trace) :
  parser_rejects_empty w ->
  (bad_config_input
     (fun db => lacks_or_mistypes converts_to_int db /\ port_defined db) w path ->
   exists e,
     getDatabaseConfiguration w path tr = ((tr ++ [EReadFile path])%list, Throw e)
     /\ (both_set w -> is_authenticated (login_of w) = true ->
         path = "config.json" ->
         run w = ((bootstrap_events w ++ [EReadFile "config.json"; EStdoutWhat e])%list,
                  Val 0)))
  /\ (forall c,
        snd (getDatabaseConfiguration w path tr) = Val c ->
        exists raw doc db vp,
          file w path = Some raw /\ json_parse w raw = inr doc /\
          member "database" doc = Some db /\
          member "port" db = Some vp /\ get_int vp = Val (port c) /\
          member "host" db = Some (JString (host c)) /\
          member "database" db = Some (JString (database c)) /\
          member "secret_role" db = Some (JString (secretRole c)) /\
          username c = "" /\ password c = "").
Proof.
  intros [e0 Hempty]. split.
  - intros Hbad.
    assert (Hthrow : exists e, load_result w path = Throw e).
    { destruct Hbad as [Hnone | [(raw & e & Hfile & Hparse) | (raw & doc & db & Hfile & Hparse & Hdb & Hlack & Hdef)]].
      - exists e0. apply load_result_parse_error. rewrite Hnone. exact Hempty.
      - exists e. apply load_result_parse_error. rewrite Hfile. exact Hparse.
      - unfold load_result, getDatabaseConfiguration, read_all. run_prog.
        rewrite Hfile, Hparse. simpl.
        rewrite (subscript_member _ _ _ Hdb). unfold get_DatabaseConfig.
        destruct (from_json_throws db empty_config Hlack Hdef) as [e He].
        destruct (from_json db empty_config) as [c' r]. simpl in He. subst r.
        exists e. reflexivity. }
    destruct Hthrow as [e He]. exists e. split.
    + rewrite getDatabaseConfiguration_trace, He. reflexivity.
    + intros Hb Hauth ->.
      rewrite (run_authenticated w Hb Hauth).
      rewrite connect_with_secrets_run, He. rewrite <- ?app_assoc. reflexivity.
  - intros c. unfold getDatabaseConfiguration, read_all. run_prog.
    destruct (file w path) as [raw |] eqn:Hfile.
    2:{ rewrite Hempty. simpl. discriminate. }
    destruct (json_parse w raw) as [e | doc] eqn:Hparse; simpl; [discriminate |].
    destruct (subscript doc "database") as [[doc' db] | | |] eqn:Hsub; simpl;
      try discriminate.
    unfold get_DatabaseConfig.
    destruct (from_json db empty_config) as [c' [[] | | |]] eqn:Hfrom;
      simpl; try discriminate.
    intros H. injection H as ->.
    destruct (from_json_returns db empty_config c Hfrom)
      as (vp & Hp & Hint & Hh & Hd & Hr & Hu & Hpw).
    assert (Hdoc : member "database" doc = Some db /\ doc' = doc).
    { destruct doc; simpl in Hsub; try discriminate.
      - injection Hsub as <- <-. discriminate.
      - simpl. destruct (find "database" members) as [v |].
        + injection Hsub as <- <-. split; reflexivity.
        + injection Hsub as <- <-. discriminate. }
    destruct Hdoc as [Hdoc ->].
    exists raw, doc, db, vp. repeat split; assumption.
Qed.

(** C8, as stated, fails: in the end-to-end scenario the first event of the
    run is an environment read of the bootstrap, with no configuration read
    before it. *)
Lemma config_loader_is_not_first :
  ~ config_loader_first (fst (run Scenario.happy)).
Proof.
  intros H.
  destruct (H [] (EGetenv "APPROLE_ROLE_ID")
              [EGetenv "APPROLE_SECRET_ID";
               EVaultLogin "role-1" "secret-1";
               EReadFile "config.json"; EGenerateCredentials "app-role";
               EDbConnect "host=db port=5432 user=u1 password=p1 dbname=app";
               EStdout "Connected"]
              eq_refl eq_refl) as (ev' & Hin & _).
  destruct Hin.
Qed.

(** C8, amended.  Every run starts with the two environment reads of the
    Secrets Client Bootstrap.  Either the configuration file is never read,
    or both variables are set, the client is authenticated and the run is the bootstrap (the two
    reads and the login), then the read of [config.json], then events that
    belong to neither stage: the Config Loader runs after the bootstrap. *)
Theorem bootstrap_before_config_loader (w : World) :
  (exists rest,
     fst (run w) = EGetenv "APPROLE_ROLE_ID" :: EGetenv "APPROLE_SECRET_ID" :: rest)
  /\ (Forall (fun ev => is_config_load ev = false) (fst (run w))
      \/ (both_set w /\ is_authenticated (login_of w) = true
          /\ exists rest,
               fst (run w)
               = (bootstrap_events w ++ EReadFile "config.json" :: rest)%list
               /\ Forall (fun ev => is_bootstrap ev = false /\ is_config_load ev = false)
                    rest)).
Proof.
  destruct (run_shape w) as [[_ Hrun] | [[_ Hrun] | [(_ & _ & Hrun) | (Hset & Hauth & rest & result & Hrun & Hrest & _)]]];
    rewrite Hrun; simpl.
  - split; [eexists; reflexivity |]. left. repeat constructor.
  - split; [eexists; reflexivity |]. left. repeat constructor.
  - split; [eexists; reflexivity |]. left. repeat constructor.
  - split; [eexists; reflexivity |]. right. split; [exact Hset |].
    split; [exact Hauth |].
    exists rest. split; [reflexivity |].
    eapply Forall_impl; [| exact Hrest].
    intros [] H; simpl in *; try discriminate; split; reflexivity.
Qed.

(** C9.  [withSecrets] leaves [port], [host], [database] and [secretRole] of
    its object as they were, whatever the broker answers and also when it
    throws; without a broker response the whole object is unchanged; what it
    returns is the object it leaves.  [connectionString] leaves its object
    unchanged.  In a run, the string handed to the database is built from
    the configuration exactly as [withSecrets] returned it, whose port, host
    and database are those loaded from the file. *)
Theorem only_credentials_change
  (w : World) (vaultClient : Client) (c : DatabaseConfig) (tr : Trace) :
  let after := fst (fst (withSecrets w vaultClient (c, tr))) in
  (port after = port c /\ host after = host c /\
   database after = database c /\ secretRole after = secretRole c)
  /\ (generate_credentials w vaultClient (secretRole c) = None -> after = c)
  /\ (forall returned,
        snd (withSecrets w vaultClient (c, tr)) = Val returned -> returned = after)
  /\ fst (connectionString (c, tr)) = (c, tr)
  /\ (forall conninfo,
        In (EDbConnect conninfo) (fst (run w)) ->
        exists loaded cfg,
          load_result w "config.json" = Val loaded /\
          enrich_result w (login_of w) loaded = Val cfg /\
          conninfo = conninfo_text (host loaded) (port loaded) (username cfg)
                       (password cfg) (database loaded)).
Proof.
  cbv zeta. rewrite withSecrets_trace. simpl.
  pose proof (enriched_object_frame w) as Hframe.
  split; [apply Hframe |]. split; [| split; [| split]].
  - intros Hnone.
    pose proof (withSecrets_absent_response_run w vaultClient c [] Hnone) as H.
    exact (f_equal (fun x => fst (fst x)) H).
  - intros returned Hret.
    destruct (enrich_result_cases w vaultClient c) as [H | [e H]];
      rewrite H in Hret; congruence.
  - reflexivity.
  - intros conninfo Hin.
    destruct (run_with_connection w conninfo Hin) as (_ & _ & loaded & cfg & Hl & He & Hc).
    exists loaded, cfg. split; [exact Hl |]. split; [exact He |].
    destruct (enrich_result_cases w (login_of w) loaded) as [H | [e H]];
      rewrite H in He; [| discriminate].
    injection He as <-.
    destruct (Hframe (login_of w) loaded) as (Hp & Hh & Hd & _).
    rewrite <- Hp, <- Hh, <- Hd. exact Hc.
Qed.

(** C10.  With a broker response present, [withSecrets] throws when the
    body is not JSON, and when the parsed body has no string at
    [data.username] (the object is then unchanged) or a string at
    [data.username] but none at [data.password]: in that last case the
    object is left with [username] already overwritten and [password]
    untouched.  In a run such an exception reaches the handler of [main],
    which prints it; [main] returns 0 and no connection is attempted. *)
Theorem present_response_can_throw
  (w : World) (vaultClient : Client) (c : DatabaseConfig) (body : string) (tr : Trace) :
  generate_credentials w vaultClient (secretRole c) = Some body ->
  let tr' := (tr ++ [EGenerateCredentials (secretRole c)])%list in
  (forall e,
     json_parse w body = inl e ->
     withSecrets w vaultClient (c, tr) = ((c, tr'), Throw e))
  /\ (forall resp,
        json_parse w body = inr resp ->
        (forall data u,
           member "data" resp = Some data ->
           member "username" data <> Some (JString u)) ->
        exists e, withSecrets w vaultClient (c, tr) = ((c, tr'), Throw e))
  /\ (forall resp data u,
        json_parse w body = inr resp ->
        member "data" resp = Some data ->
        member "username" data = Some (JString u) ->
        (forall pw, member "password" data <> Some (JString pw)) ->
        exists e,
          withSecrets w vaultClient (c, tr) = ((set_username u c, tr'), Throw e)
          /\ username (set_username u c) = u
          /\ password (set_username u c) = password c)
  /\ (forall e,
        enrich_result w vaultClient c = Throw e ->
        both_set w ->
        is_authenticated (login_of w) = true ->
        vaultClient = login_of w ->
        load_result w "config.json" = Val c ->
        run w = ((bootstrap_events w
                  ++ [EReadFile "config.json"; EGenerateCredentials (secretRole c);
                      EStdoutWhat e])%list, Val 0)).
Proof.
  intros Hgen. cbv zeta.
  split; [| split; [| split]].
  - intros e Hparse.
    unfold withSecrets, generateCredentials. run_prog.
    rewrite Hgen, Hparse. reflexivity.
  - intros resp Hparse Hno.
    unfold withSecrets, generateCredentials. run_prog.
    rewrite Hgen, Hparse. simpl.
    assert (Hcred : forall credentials,
               (forall u, member "username" credentials <> Some (JString u)) ->
               exists e,
                 match subscript credentials "username" with
                 | Val (credentials', ju) =>
                     match get_string ju with
                     | Val _ => Val tt
                     | Throw e' => Throw e'
                     | Exit code => Exit code
                     | Undef => Undef
                     end
                 | Throw e' => Throw e'
                 | Exit code => Exit code
                 | Undef => Undef
                 end = Throw e).
    { intros credentials Hc.
      destruct credentials; simpl; try (eexists; reflexivity).
      destruct (find "username" members) as [v |] eqn:Hfind; simpl;
        [| eexists; reflexivity].
      destruct v; simpl; try (eexists; reflexivity).
      exfalso. apply (Hc s). simpl. exact Hfind. }
    destruct resp; simpl; try (eexists; reflexivity).
    destruct (find "data" members) as [data |] eqn:Hdata; simpl;
      [| eexists; reflexivity].
    destruct (Hcred data (fun u => Hno data u Hdata)) as [e He].
    destruct (subscript data "username") as [[credentials' ju] | | |];
      try (injection He as ->); try discriminate He; try (eexists; reflexivity).
    destruct (get_string ju); try discriminate He.
    eexists; reflexivity.
  - intros resp data u Hparse Hdata Hu Hnopw.
    unfold withSecrets, generateCredentials. run_prog.
    rewrite Hgen, Hparse. simpl.
    rewrite (subscript_member _ _ _ Hdata), (subscript_member _ _ _ Hu). simpl.
    destruct data; simpl in Hu; try discriminate. simpl in Hnopw. simpl.
    destruct (find "password" members) as [v |] eqn:Hfind; simpl.
    + destruct v; simpl; try (eexists; repeat split; reflexivity).
      exfalso. apply (Hnopw s). reflexivity.
    + eexists; repeat split; reflexivity.
  - intros e Hthrow Hb Hauth -> Hload.
    rewrite (run_authenticated w Hb Hauth).
    rewrite connect_with_secrets_run, Hload, Hthrow. cbv zeta.
    rewrite <- ?app_assoc. reflexivity.
Qed.

(** ** The theorems at concrete worlds *)

(** The end-to-end scenario of the specification. *)
Example happy_run :
  run Scenario.happy
  = ([EGetenv "APPROLE_ROLE_ID"; EGetenv "APPROLE_SECRET_ID";
      EVaultLogin "role-1" "secret-1";
      EReadFile "config.json"; EGenerateCredentials "app-role";
      EDbConnect "host=db port=5432 user=u1 password=p1 dbname=app";
      EStdout "Connected"], Val 0).
Proof. reflexivity. Qed.

Example show_int_examples :
  show_int 5432 = "5432" /\ show_int 0 = "0" /\ show_int (-7) = "-7".
Proof. repeat split. Qed.

Lemma connectionString_exact_witness :
  config_document (Scenario.config_json (JUInt 5432)) 5432 "db" "app" "app-role"
  /\ credential_response Scenario.secret_json "u1" "p1"
  /\ resolve_conninfo Scenario.happy "config.json" {| is_authenticated := true |} []
     = ([EReadFile "config.json"; EGenerateCredentials "app-role"],
        Val "host=db port=5432 user=u1 password=p1 dbname=app").
Proof.
  assert (Hdoc : config_document (Scenario.config_json (JUInt 5432))
                   5432 "db" "app" "app-role").
  { eexists; eexists. repeat split; try reflexivity. right. reflexivity. }
  assert (Hresp : credential_response Scenario.secret_json "u1" "p1").
  { eexists. repeat split; reflexivity. }
  split; [exact Hdoc |]. split; [exact Hresp |].
  exact (proj1 (connectionString_exact Scenario.happy {| is_authenticated := true |}
                  "config.json" (Scenario.config_text "5432")
                  (Scenario.config_json (JUInt 5432)) 5432 "db" "app" "app-role"
                  Scenario.secret_text Scenario.secret_json "u1" "p1" []
                  eq_refl eq_refl Hdoc eq_refl eq_refl Hresp)).
Defined.

Lemma withSecrets_absent_response_witness :
  withSecrets (Scenario.with_secret None Scenario.happy) {| is_authenticated := true |}
    (loaded_config 5432 "db" "app" "app-role", [])
  = ((loaded_config 5432 "db" "app" "app-role", [EGenerateCredentials "app-role"]),
     Val (loaded_config 5432 "db" "app" "app-role")).
Proof.
  apply (withSecrets_absent_response (Scenario.with_secret None Scenario.happy)
           {| is_authenticated := true |}
           (loaded_config 5432 "db" "app" "app-role") []).
  reflexivity.
Defined.

Lemma both_unset_exits_at_once_witness :
  both_unset (Scenario.with_env Scenario.env_none Scenario.happy)
  /\ snd (run (Scenario.with_env Scenario.env_none Scenario.happy)) = Exit (-1).
Proof.
  assert (H : both_unset (Scenario.with_env Scenario.env_none Scenario.happy))
    by (split; reflexivity).
  split; [exact H |].
  rewrite (proj1 (both_unset_exits_at_once _ H)). reflexivity.
Defined.


Lemma unauthenticated_stops_witness :
  both_set (Scenario.with_login false Scenario.happy)
  /\ run (Scenario.with_login false Scenario.happy)
     = ([EGetenv "APPROLE_ROLE_ID"; EGetenv "APPROLE_SECRET_ID";
         EVaultLogin "role-1" "secret-1";
         EStdout "Unable to authenticate to Vault"], Val 0).
Proof.
  assert (H : both_set (Scenario.with_login false Scenario.happy))
    by (split; discriminate).
  split; [exact H |].
  exact (proj1 (unauthenticated_stops _ H eq_refl)).
Defined.


Lemma bad_config_raises_witness :
  parser_rejects_empty (Scenario.with_file (fun _ => None) Scenario.happy)
  /\ exists e,
       getDatabaseConfiguration (Scenario.with_file (fun _ => None) Scenario.happy)
         "config.json" []
       = ([EReadFile "config.json"], Throw e).
Proof.
  assert (H : parser_rejects_empty (Scenario.with_file (fun _ => None) Scenario.happy)).
  { exists (parse_error "syntax error"). reflexivity. }
  split; [exact H |].
  destruct (proj1 (bad_config_raises _ "config.json" [] H)) as (e & He & _).
  - left. reflexivity.
  - exists e. exact He.
Defined.

Lemma only_credentials_change_witness :
  fst (fst (withSecrets (Scenario.with_secret None Scenario.happy)
              {| is_authenticated := true |}
              (loaded_config 5432 "db" "app" "app-role", [])))
  = loaded_config 5432 "db" "app" "app-role".
Proof.
  apply (proj1 (proj2 (only_credentials_change
                         (Scenario.with_secret None Scenario.happy)
                         {| is_authenticated := true |}
                         (loaded_config 5432 "db" "app" "app-role") []))).
  reflexivity.
Defined.

Lemma present_response_can_throw_witness :
  exists e,
    withSecrets (Scenario.with_secret (Some Scenario.no_password_text) Scenario.happy)
      {| is_authenticated := true |}
      (loaded_config 5432 "db" "app" "app-role", [])
    = (({| port := 5432; host := "db"; database := "app"; secretRole := "app-role";
           username := "u1"; password := "" |},
        [EGenerateCredentials "app-role"]), Throw e).
Proof.
  destruct (proj1 (proj2 (proj2
              (present_response_can_throw
                 (Scenario.with_secret (Some Scenario.no_password_text) Scenario.happy)
                 {| is_authenticated := true |}
                 (loaded_config 5432 "db" "app" "app-role")
                 Scenario.no_password_text [] eq_refl)))
              Scenario.no_password_json
              (JObject [("username", JString "u1")]) "u1"
              eq_refl eq_refl eq_refl) as (e & He & _).
  - intros pw. discriminate.
  - exists e. exact He.
Defined.

(** ** Whole runs, case by case *)

Lemma run_cases (w : World) :
  both_set w ->
  run w
  = if is_authenticated (login_of w)
    then match load_result w "config.json" with
         | Val loaded =>
             match enrich_result w (login_of w) loaded with
             | Val cfg =>
                 ((bootstrap_events w
                   ++ [EReadFile "config.json";
                       EGenerateCredentials (secretRole loaded);
                       EDbConnect (conninfo_of cfg);
                       outcome_line (pq_connect w (conninfo_of cfg))])%list, Val 0)
             | Throw e =>
                 ((bootstrap_events w
                   ++ [EReadFile "config.json";
                       EGenerateCredentials (secretRole loaded);
                       EStdoutWhat e])%list, Val 0)
             | Exit code =>
                 ((bootstrap_events w
                   ++ [EReadFile "config.json";
                       EGenerateCredentials (secretRole loaded)])%list, Exit code)
             | Undef =>
                 ((bootstrap_events w
                   ++ [EReadFile "config.json";
                       EGenerateCredentials (secretRole loaded)])%list, Undef)
             end
         | Throw e =>
             ((bootstrap_events w ++ [EReadFile "config.json"; EStdoutWhat e])%list,
              Val 0)
         | Exit code => ((bootstrap_events w ++ [EReadFile "config.json"])%list, Exit code)
         | Undef => ((bootstrap_events w ++ [EReadFile "config.json"])%list, Undef)
         end
    else ((bootstrap_events w ++ [EStdout "Unable to authenticate to Vault"])%list,
          Val 0).
Proof.
  intros Hgate.
  destruct (is_authenticated (login_of w)) eqn:Hauth.
  - rewrite (run_authenticated w Hgate Hauth), connect_with_secrets_run.
    destruct (load_result w "config.json") as [loaded | e | code | ];
      rewrite <- ?app_assoc; try reflexivity.
    destruct (enrich_result w (login_of w) loaded) as [cfg | e | code | ];
      cbv zeta; rewrite <- ?app_assoc; try reflexivity.
    fold (conninfo_of cfg).
    destruct (pq_connect w (conninfo_of cfg)) as [e | [|]];
      rewrite <- ?app_assoc; reflexivity.
  - apply run_unauthenticated; assumption.
Qed.

Lemma run_classified (w : World) : run_kind w (run w).
Proof.
  destruct (env_cases w) as [Hb | [Hone | Hset]].
  - destruct Hb as [Hr Hs]. rewrite (run_gate w Hr Hs).
    apply RunGate. split; assumption.
  - rewrite (run_null w Hone). apply RunNullIdentifier. exact Hone.
  - rewrite (run_cases w Hset).
    destruct (is_authenticated (login_of w)) eqn:Hauth.
    + pose proof (load_result_no_exit w "config.json") as Hne.
      destruct (load_result w "config.json") as [loaded | e | code | ] eqn:Hload.
      * destruct (enrich_result_cases w (login_of w) loaded) as [He | [e He]];
          rewrite He.
        -- apply (RunConnects w loaded); assumption.
        -- apply (RunEnrichThrows w loaded); assumption.
      * apply RunLoadThrows; assumption.
      * exfalso. exact (Hne code eq_refl).
      * apply RunLoadUndefined; assumption.
    + apply RunUnauthenticated; assumption.
Qed.

(** ** Further properties of [main.cpp] *)

(** A property of every event of a concrete trace, event by event. *)
Ltac all_events :=
  repeat (apply Forall_cons; [first [exact I | reflexivity | solve [simpl; auto 6]] |]);
  apply Forall_nil.

(** X1.  Nothing is tried twice.  Every run reads the environment exactly
    twice, and logs in, reads a file, requests credentials and opens a
    connection at most once each; the only variables read are
    [APPROLE_ROLE_ID] and [APPROLE_SECRET_ID] and the only file read is
    [config.json]. *)
Theorem nothing_is_retried (w : World) :
  count is_getenv (fst (run w)) = 2%nat
  /\ (count is_login (fst (run w)) <= 1)%nat
  /\ (count is_config_load (fst (run w)) <= 1)%nat
  /\ (count is_credential_request (fst (run w)) <= 1)%nat
  /\ (count is_db_connect (fst (run w)) <= 1)%nat
  /\ Forall (fun ev =>
               match ev with
               | EGetenv name => name = "APPROLE_ROLE_ID" \/ name = "APPROLE_SECRET_ID"
               | EReadFile path => path = "config.json"
               | _ => True
               end) (fst (run w)).
Proof.
  destruct (run_classified w); unfold count, bootstrap_events; simpl;
    try (destruct (pq_connect w (conninfo_of cfg)) as [e | [|]]; simpl);
    repeat split; auto; all_events.
Qed.

(** X2.  A run whose outcome is defined writes exactly one line to
    standard output: the diagnostic of the gate, the authentication failure,
    the message of a caught exception, or the line the driver decides. *)
Theorem one_line_of_output (w : World) :
  snd (run w) <> Undef ->
  count is_stdout (fst (run w)) = 1%nat.
Proof.
  intros Hdef.
  destruct (run_classified w); unfold count, bootstrap_events in *; simpl in *;
    try reflexivity; try contradiction.
  destruct (pq_connect w (conninfo_of cfg)) as [e | [|]]; reflexivity.
Qed.

(** X3.  The only text lines a run writes are the four string literals of
    [main.cpp]; anything else on standard output is the message of a caught
    exception.  No environment value, credential or connection string is
    written by the program itself. *)
Theorem only_fixed_lines (w : World) :
  Forall (fun ev =>
            match ev with
            | EStdout line => In line fixed_lines
            | _ => True
            end) (fst (run w)).
Proof.
  destruct (run_classified w); unfold bootstrap_events, fixed_lines; simpl;
    try (destruct (pq_connect w (conninfo_of cfg)) as [e | [|]]; simpl);
    all_events.
Qed.

(** X4.  How a run ends.  It ends in [exit(-1)] exactly when both
    variables are unset.  It is undefined exactly when one variable is unset
    (an identifier is built from the null pointer), or both are set, the
    client is authenticated and loading the configuration is undefined.  In
    every other run [main] returns 0; with both variables set no exception
    leaves [main]. *)
Theorem run_outcomes (w : World) :
  (snd (run w) = Exit (-1) <-> both_unset w)
  /\ (snd (run w) = Undef <->
      exactly_one_set w
      \/ (both_set w /\ is_authenticated (login_of w) = true /\
          load_result w "config.json" = Undef))
  /\ (snd (run w) = Val 0 \/ snd (run w) = Exit (-1) \/ snd (run w) = Undef)
  /\ (both_set w -> forall e, snd (run w) <> Throw e).
Proof.
  destruct (run_classified w) as [Hb | Hone | Hs Ha | e Hs Ha Hl | Hs Ha Hl
                                 | loaded e Hs Ha Hl He | loaded cfg Hs Ha Hl He];
    simpl.
  - split; [tauto |]. split; [| split; [auto | discriminate]].
    split; [discriminate |].
    intros [Hone | (Hs & _)].
    + exfalso. exact (one_set_not_unset w Hone Hb).
    + exfalso. exact (both_set_not_unset w Hs Hb).
  - split; [| split; [tauto | split; [auto | discriminate]]].
    split; [discriminate |]. intros Hb. exfalso. exact (one_set_not_unset w Hone Hb).
  - split; [| split; [| split; [auto | discriminate]]].
    + split; [discriminate |]. intros Hb. exfalso. exact (both_set_not_unset w Hs Hb).
    + split; [discriminate |].
      intros [Hone | (_ & Ha' & _)]; [| congruence].
      exfalso. exact (both_set_not_one w Hs Hone).
  - split; [| split; [| split; [auto | discriminate]]].
    + split; [discriminate |]. intros Hb. exfalso. exact (both_set_not_unset w Hs Hb).
    + split; [discriminate |].
      intros [Hone | (_ & _ & Hl')]; [| congruence].
      exfalso. exact (both_set_not_one w Hs Hone).
  - split; [| split; [| split; [auto | discriminate]]].
    + split; [discriminate |]. intros Hb. exfalso. exact (both_set_not_unset w Hs Hb).
    + split; [auto |]. reflexivity.
  - split; [| split; [| split; [auto | discriminate]]].
    + split; [discriminate |]. intros Hb. exfalso. exact (both_set_not_unset w Hs Hb).
    + split; [discriminate |].
      intros [Hone | (_ & _ & Hl')]; [| congruence].
      exfalso. exact (both_set_not_one w Hs Hone).
  - split; [| split; [| split; [auto | discriminate]]].
    + split; [discriminate |]. intros Hb. exfalso. exact (both_set_not_unset w Hs Hb).
    + split; [discriminate |].
      intros [Hone | (_ & _ & Hl')]; [| congruence].
      exfalso. exact (both_set_not_one w Hs Hone).
Qed.

Lemma load_result_well_formed
  (w : World) (path raw : string) (doc : json) (p : Z) (h d r : string) :
  file w path = Some raw ->
  json_parse w raw = inr doc ->
  config_document doc p h d r ->
  load_result w path = Val (loaded_config p h d r).
Proof.
  intros Hfile Hparse Hdoc.
  exact (f_equal snd (getDatabaseConfiguration_well_formed w path raw doc p h d r []
                        Hfile Hparse Hdoc)).
Qed.

Lemma load_result_returns (w : World) (path : string) (c : DatabaseConfig) :
  load_result w path = Val c ->
  exists doc db,
    json_parse w (match file w path with Some contents => contents | None => "" end)
    = inr doc /\
    member "database" doc = Some db /\
    from_json db empty_config = (c, Val tt).
Proof.
  unfold load_result, getDatabaseConfiguration, read_all. run_prog.
  destruct (json_parse w _) as [e | doc]; simpl; [discriminate |].
  destruct (subscript doc "database") as [[doc' db] | | |] eqn:Hsub; simpl;
    try discriminate.
  unfold get_DatabaseConfig.
  destruct (from_json db empty_config) as [c' [[] | | |]] eqn:Hfrom;
    simpl; try discriminate.
  intros H. injection H as ->.
  exists doc, db. split; [reflexivity |]. split; [| exact Hfrom].
  destruct (from_json_returns db empty_config c Hfrom) as (vp & Hp & _).
  destruct doc; simpl in Hsub; try discriminate.
  - injection Hsub as <- <-. discriminate.
  - simpl. destruct (find "database" members) as [v |].
    + injection Hsub as <- <-. reflexivity.
    + injection Hsub as <- <-. discriminate.
Qed.

(** X5.  The whole run when everything is in place: with both variables
    set, an authenticated client, a well-formed [config.json] and a broker
    response carrying both credentials, the run is the bootstrap, the file
    read, one credential request for the configured role, one connection with
    the exact connection string, and one line decided by the driver
    ([Connected], [Could not connect] or the message of its exception);
    [main] returns 0. *)
Theorem run_with_issued_credentials
  (w : World) (raw : string) (doc : json) (p : Z) (h d r : string)
  (body : string) (resp : json) (u pw : string) :
  both_set w ->
  is_authenticated (login_of w) = true ->
  file w "config.json" = Some raw ->
  json_parse w raw = inr doc ->
  config_document doc p h d r ->
  generate_credentials w (login_of w) r = Some body ->
  json_parse w body = inr resp ->
  credential_response resp u pw ->
  run w
  = ((bootstrap_events w
      ++ [EReadFile "config.json"; EGenerateCredentials r;
          EDbConnect (conninfo_text h p u pw d);
          outcome_line (pq_connect w (conninfo_text h p u pw d))])%list, Val 0).
Proof.
  intros Hb Hauth Hfile Hparse Hdoc Hgen Hbody Hresp.
  rewrite (run_cases w Hb), Hauth.
  rewrite (load_result_well_formed w "config.json" raw doc p h d r Hfile Hparse Hdoc).
  assert (He : enrich_result w (login_of w) (loaded_config p h d r)
               = Val (set_password pw (set_username u (loaded_config p h d r)))).
  { exact (f_equal snd (withSecrets_success w (login_of w) (loaded_config p h d r)
                          body resp u pw [] Hgen Hbody Hresp)). }
  rewrite He. reflexivity.
Qed.

(** X6.  Silent degradation: when the broker gives no response the run
    does not stop.  It goes on to open the connection with an empty user
    and an empty password, and reports what the driver answers. *)
Theorem run_without_credentials
  (w : World) (raw : string) (doc : json) (p : Z) (h d r : string) :
  both_set w ->
  is_authenticated (login_of w) = true ->
  file w "config.json" = Some raw ->
  json_parse w raw = inr doc ->
  config_document doc p h d r ->
  generate_credentials w (login_of w) r = None ->
  run w
  = ((bootstrap_events w
      ++ [EReadFile "config.json"; EGenerateCredentials r;
          EDbConnect (conninfo_text h p "" "" d);
          outcome_line (pq_connect w (conninfo_text h p "" "" d))])%list, Val 0).
Proof.
  intros Hb Hauth Hfile Hparse Hdoc Hgen.
  rewrite (run_cases w Hb), Hauth.
  rewrite (load_result_well_formed w "config.json" raw doc p h d r Hfile Hparse Hdoc).
  assert (He : enrich_result w (login_of w) (loaded_config p h d r)
               = Val (loaded_config p h d r)).
  { exact (f_equal snd (withSecrets_absent_response_run w (login_of w)
                          (loaded_config p h d r) [] Hgen)). }
  rewrite He. reflexivity.
Qed.

(** X7.  Credentials are requested only for the role the file names, and
    only after the bootstrap and the file read: a credential request for
    [r] in a run means that both variables are set, that the client is
    authenticated, that [config.json]
    parsed to a document whose [database.secret_role] is the string [r], and
    that the run starts with the bootstrap, the file read and that
    request. *)
Theorem credentials_requested_for_configured_role (w : World) (r : string) :
  In (EGenerateCredentials r) (fst (run w)) ->
  both_set w /\ is_authenticated (login_of w) = true
  /\ exists doc db rest,
       json_parse w (match file w "config.json" with
                     | Some contents => contents
                     | None => ""
                     end) = inr doc
       /\ member "database" doc = Some db
       /\ member "secret_role" db = Some (JString r)
       /\ fst (run w)
          = (bootstrap_events w
             ++ EReadFile "config.json" :: EGenerateCredentials r :: rest)%list.
Proof.
  intros Hin.
  assert (Hload : forall loaded,
             load_result w "config.json" = Val loaded ->
             exists doc db,
               json_parse w (match file w "config.json" with
                             | Some contents => contents
                             | None => ""
                             end) = inr doc
               /\ member "database" doc = Some db
               /\ member "secret_role" db = Some (JString (secretRole loaded))).
  { intros loaded Hl.
    destruct (load_result_returns w "config.json" loaded Hl) as (doc & db & Hp & Hdb & Hfrom).
    destruct (from_json_returns db empty_config loaded Hfrom)
      as (vp & _ & _ & _ & _ & Hr & _).
    exists doc, db. auto. }
  destruct (run_classified w); unfold bootstrap_events in Hin; in_trace Hin.
  - injection Hin as <-. split; [assumption |]. split; [assumption |].
    destruct (Hload loaded) as (doc & db & Hp & Hdb & Hr); [assumption |].
    exists doc, db. eexists. repeat split; eassumption.
  - injection Hin as <-. split; [assumption |]. split; [assumption |].
    destruct (Hload loaded) as (doc & db & Hp & Hdb & Hr); [assumption |].
    exists doc, db. eexists. repeat split; eassumption.
  - destruct (pq_connect w (conninfo_of cfg)) as [e | [|]]; discriminate Hin.
Qed.

(** ** Further properties of [from_json] and [getDatabaseConfiguration] *)

(** X8.  [from_json] never writes [username] or [password], whatever the
    document and also when it throws; and it stores field by field, so when
    the port converts and [host] is missing or not a string, the record it
    was given is left with the new port and everything else as before. *)
Theorem from_json_frame_and_order (j : json) (c : DatabaseConfig) :
  (username (fst (from_json j c)) = username c /\
   password (fst (from_json j c)) = password c)
  /\ (forall vp n,
        member "port" j = Some vp ->
        get_int vp = Val n ->
        (forall s, member "host" j <> Some (JString s)) ->
        exists e, from_json j c = (set_port n c, Throw e)).
Proof.
  split.
  - unfold from_json. run_prog.
    destruct (at_ j "port") as [vp | | |]; simpl; auto.
    destruct (get_int vp) as [n | | |]; simpl; auto.
    destruct (at_ j "host") as [vh | | |]; simpl; auto.
    destruct (get_string vh) as [h | | |]; simpl; auto.
    destruct (at_ j "database") as [vd | | |]; simpl; auto.
    destruct (get_string vd) as [d | | |]; simpl; auto.
    destruct (at_ j "secret_role") as [vr | | |]; simpl; auto.
    destruct (get_string vr) as [r | | |]; simpl; auto.
  - intros vp n Hp Hn Hhost.
    unfold from_json. run_prog.
    rewrite (at_member _ _ _ Hp), Hn. simpl.
    destruct j; simpl in Hp; try discriminate. simpl in Hhost. simpl.
    destruct (find "host" members) as [vh |]; simpl; [| eexists; reflexivity].
    destruct vh; simpl; try (eexists; reflexivity).
    exfalso. apply (Hhost s). reflexivity.
Qed.

(** X9.  Which exception a defective document gives.  A document that is
    neither an object nor null: [type_error.305].  No [database] member:
    [type_error.304] on null.  A [database] member that is not an object:
    [type_error.304] on its kind.  A [database] object without [port]:
    [out_of_range.403] for [port], whatever else it lacks.  A [port] that is
    neither a number nor a boolean: [type_error.302] on its kind. *)
Theorem config_error_kinds (w : World) (path : string) (doc : json) :
  json_parse w (match file w path with Some contents => contents | None => "" end)
  = inr doc ->
  (type_of doc <> t_object -> type_of doc <> t_null ->
   load_result w path = Throw (type_error 305 (type_of doc)))
  /\ (type_of doc = t_object \/ type_of doc = t_null ->
      member "database" doc = None ->
      load_result w path = Throw (type_error 304 t_null))
  /\ (forall db,
        member "database" doc = Some db ->
        (type_of db <> t_object ->
         load_result w path = Throw (type_error 304 (type_of db)))
        /\ (type_of db = t_object -> member "port" db = None ->
            load_result w path = Throw (out_of_range 403 "port"))
        /\ (forall vp,
              member "port" db = Some vp -> converts_to_int vp = false ->
              load_result w path = Throw (type_error 302 (type_of vp)))).
Proof.
  intros Hparse.
  unfold load_result, getDatabaseConfiguration, read_all. run_prog.
  rewrite Hparse. simpl.
  split; [| split].
  - intros Hobj Hnull. destruct doc; simpl in *; try reflexivity; congruence.
  - intros Hkind Hnone.
    destruct doc; simpl in *; try (destruct Hkind; discriminate); try reflexivity.
    rewrite Hnone. reflexivity.
  - intros db Hdb. rewrite (subscript_member _ _ _ Hdb).
    unfold get_DatabaseConfig, from_json. run_prog.
    split; [| split].
    + intros Hobj. destruct db; simpl in *; try reflexivity; congruence.
    + intros Hobj Hnone. destruct db; simpl in *; try discriminate.
      rewrite Hnone. reflexivity.
    + intros vp Hp Hconv. rewrite (at_member _ _ _ Hp). simpl.
      destruct vp; simpl in *; try discriminate; reflexivity.
Qed.

(** X10.  Only the four members count.  Two documents that are objects
    whose [database] members are objects agreeing on [port], [host],
    [database] and [secret_role] load to the same result, whatever other
    members they have and in whatever order. *)
Theorem other_members_are_ignored
  (w1 w2 : World) (path1 path2 : string)
  (top1 top2 members1 members2 : list (string * json)) :
  json_parse w1 (match file w1 path1 with Some contents => contents | None => "" end)
  = inr (JObject top1) ->
  json_parse w2 (match file w2 path2 with Some contents => contents | None => "" end)
  = inr (JObject top2) ->
  find "database" top1 = Some (JObject members1) ->
  find "database" top2 = Some (JObject members2) ->
  (forall key, In key config_keys -> find key members1 = find key members2) ->
  load_result w1 path1 = load_result w2 path2.
Proof.
  intros Hp1 Hp2 Hd1 Hd2 Hsame.
  unfold load_result, getDatabaseConfiguration, read_all. run_prog.
  rewrite Hp1, Hp2. simpl. rewrite Hd1, Hd2. simpl.
  unfold get_DatabaseConfig, from_json. run_prog.
  rewrite (Hsame "port"), (Hsame "host"), (Hsame "database"), (Hsame "secret_role");
    simpl; auto 6.
Qed.

Lemma int_of_Z_range (z : Z) : fits_int (int_of_Z z) = true.
Proof.
  unfold fits_int, int_of_Z.
  pose proof (Z.mod_pos_bound (z + 2 ^ 31) (2 ^ 32) ltac:(lia)) as H.
  apply andb_true_iff. split; [apply Z.leb_le | apply Z.ltb_lt]; lia.
Qed.

Lemma int_of_Z_congruent (z : Z) : (int_of_Z z - z) mod 2 ^ 32 = 0.
Proof.
  unfold int_of_Z.
  rewrite (Z.mod_eq (z + 2 ^ 31) (2 ^ 32)) by lia.
  replace (z + 2 ^ 31 - 2 ^ 32 * ((z + 2 ^ 31) / 2 ^ 32) - 2 ^ 31 - z)
    with (- ((z + 2 ^ 31) / 2 ^ 32) * 2 ^ 32) by ring.
  apply Z.mod_mul. lia.
Qed.

Lemma get_int_range (v : json) (n : Z) : get_int v = Val n -> fits_int n = true.
Proof.
  destruct v; simpl; try discriminate.
  - destruct b; intros H; injection H as <-; reflexivity.
  - intros H; injection H as <-. apply int_of_Z_range.
  - intros H; injection H as <-. apply int_of_Z_range.
  - unfold int_of_double.
    destruct (truncate d) as [z |]; [| discriminate].
    destruct (fits_int z) eqn:Hz; [| discriminate].
    intros H; injection H as <-. exact Hz.
Qed.

(** X11.  The port of a loaded configuration is always an [int].  A JSON
    integer in the file that does not fit is not rejected: the port is that
    integer reduced modulo 2^32, and it is the integer itself exactly when
    it fits. *)
Theorem loaded_port_is_an_int (w : World) (path : string) (c : DatabaseConfig) :
  load_result w path = Val c ->
  fits_int (port c) = true
  /\ exists doc db vp,
       json_parse w (match file w path with Some contents => contents | None => "" end)
       = inr doc
       /\ member "database" doc = Some db
       /\ member "port" db = Some vp
       /\ (forall z, integer_value vp z ->
             (port c - z) mod 2 ^ 32 = 0 /\ (port c = z <-> fits_int z = true)).
Proof.
  intros Hload.
  destruct (load_result_returns w path c Hload) as (doc & db & Hparse & Hdb & Hfrom).
  destruct (from_json_returns db empty_config c Hfrom) as (vp & Hp & Hn & _).
  split; [exact (get_int_range vp (port c) Hn) |].
  exists doc, db, vp. repeat split; try assumption.
  - destruct H as [-> | ->]; simpl in Hn; injection Hn as <-;
      apply int_of_Z_congruent.
  - intros Heq. rewrite <- Heq. exact (get_int_range vp (port c) Hn).
  - intros Hfit. destruct H as [-> | ->]; simpl in Hn; injection Hn as <-;
      apply int_of_Z_fits; exact Hfit.
Qed.

(** ** Further properties of [connectionString] and [withSecrets] *)

Lemma string_app_assoc (a b c : string) : ((a ++ b) ++ c = a ++ b ++ c)%string.
Proof. induction a as [| ch a IH]; simpl; [reflexivity | rewrite IH; reflexivity]. Qed.

Lemma string_app_length (a b : string) :
  String.length (a ++ b) = (String.length a + String.length b)%nat.
Proof. induction a as [| ch a IH]; simpl; [reflexivity | rewrite IH; reflexivity]. Qed.

(** X12.  [connectionString] joins the fields as they are, without quoting
    or escaping.  So two different configurations can give the same
    connection string: a user name that ends in [ password=x] followed by
    password [y] reads the same as the user name without that ending
    followed by password [x password=y]. *)
Theorem connectionString_does_not_quote (c : DatabaseConfig) (u x y : string) (tr : Trace) :
  let c1 := set_password y (set_username (u ++ " password=" ++ x) c) in
  let c2 := set_password (x ++ " password=" ++ y) (set_username u c) in
  username c1 <> username c2
  /\ snd (connectionString (c1, tr)) = snd (connectionString (c2, tr)).
Proof.
  cbv zeta. split.
  - simpl. intros H. apply (f_equal String.length) in H.
    rewrite string_app_length in H. simpl in H. lia.
  - rewrite !connectionString_run. unfold snd, conninfo_text.
    cbn [username password host port database set_username set_password].
    rewrite !string_app_assoc. reflexivity.
Qed.

Lemma show_int_read (k : Z) : read_int (show_int k) = Some k.
Proof.
  unfold read_int, show_int.
  rewrite NilZero.isi.
  - simpl. rewrite DecimalZ.of_to. reflexivity.
  - destruct k; simpl; try discriminate.
    intros H. injection H as H. exact (DecimalPos.Unsigned.to_uint_nonnil p H).
  - destruct k; simpl; try discriminate.
    intros H. injection H as H. exact (DecimalPos.Unsigned.to_uint_nonnil p H).
Qed.

Lemma string_app_inv_head (a x y : string) : (a ++ x = a ++ y)%string -> x = y.
Proof.
  induction a as [| ch a IH]; simpl; intros H; [exact H |].
  injection H as H. exact (IH H).
Qed.

Lemma string_app_inv_tail (x y r : string) : (x ++ r = y ++ r)%string -> x = y.
Proof.
  revert y. induction x as [| ch x IH]; intros [| ch' y] H; simpl in H.
  - reflexivity.
  - apply (f_equal String.length) in H. simpl in H.
    rewrite string_app_length in H. lia.
  - apply (f_equal String.length) in H. simpl in H.
    rewrite string_app_length in H. lia.
  - injection H as -> H. rewrite (IH y H). reflexivity.
Qed.

(** X13.  The port can be read off the connection string: two
    configurations that differ only in the port have different connection
    strings. *)
Theorem connectionString_tells_ports_apart
  (c : DatabaseConfig) (n m : Z) (tr : Trace) :
  n <> m ->
  snd (connectionString (set_port n c, tr)) <> snd (connectionString (set_port m c, tr)).
Proof.
  intros Hne Heq. apply Hne.
  rewrite !connectionString_run in Heq. unfold snd, conninfo_text in Heq.
  cbn [username password host port database set_port] in Heq.
  injection Heq as Heq.
  apply string_app_inv_head in Heq.
  injection Heq as Heq.
  apply string_app_inv_tail in Heq.
  pose proof (show_int_read n) as Hn. rewrite Heq, show_int_read in Hn.
  congruence.
Qed.

Lemma subscript_present (j j' v : json) (key : string) :
  subscript j key = Val (j', v) -> v <> JNull -> member key j = Some v /\ j' = j.
Proof.
  destruct j; simpl; try discriminate.
  - intros H Hnn. injection H as <- <-. congruence.
  - destruct (find key members) as [v0 |]; intros H Hnn; injection H as <- <-.
    + split; reflexivity.
    + congruence.
Qed.

Lemma enrich_result_returns
  (w : World) (vaultClient : Client) (c cfg : DatabaseConfig) (body : string) :
  generate_credentials w vaultClient (secretRole c) = Some body ->
  enrich_result w vaultClient c = Val cfg ->
  exists resp u pw,
    json_parse w body = inr resp
    /\ credential_response resp u pw
    /\ cfg = set_password pw (set_username u c).
Proof.
  intros Hgen.
  unfold enrich_result, withSecrets, generateCredentials. run_prog.
  rewrite Hgen.
  destruct (json_parse w body) as [e | resp]; simpl; [discriminate |].
  destruct (subscript resp "data") as [[resp' data] | | |] eqn:Hdata; simpl;
    try discriminate.
  destruct (subscript data "username") as [[data' ju] | | |] eqn:Hu; simpl;
    try discriminate.
  destruct (get_string ju) as [u | | |] eqn:Hgu; simpl; try discriminate.
  destruct (subscript data' "password") as [[data'' jp] | | |] eqn:Hp; simpl;
    try discriminate.
  destruct (get_string jp) as [pw | | |] eqn:Hgp; simpl; try discriminate.
  intros H. injection H as <-.
  assert (Hju : ju = JString u) by (destruct ju; simpl in Hgu; congruence).
  assert (Hjp : jp = JString pw) by (destruct jp; simpl in Hgp; congruence).
  subst ju jp.
  destruct (subscript_present _ _ _ _ Hu ltac:(discriminate)) as [Hmu ->].
  destruct (subscript_present _ _ _ _ Hp ltac:(discriminate)) as [Hmp _].
  assert (Hnn : data <> JNull) by (intros ->; discriminate Hmu).
  destruct (subscript_present _ _ _ _ Hdata Hnn) as [Hmd _].
  exists resp, u, pw. split; [reflexivity |]. split; [| reflexivity].
  exists data. auto.
Qed.

(** X14.  With a response present, [withSecrets] returns exactly when the
    response parses and has strings at [data.username] and [data.password];
    the configuration it returns is its object with those two strings as
    credentials, whatever credentials the object had before. *)
Theorem withSecrets_returns_with_both_credentials
  (w : World) (vaultClient : Client) (c cfg : DatabaseConfig) (body : string) :
  generate_credentials w vaultClient (secretRole c) = Some body ->
  (enrich_result w vaultClient c = Val cfg <->
   exists resp u pw,
     json_parse w body = inr resp
     /\ credential_response resp u pw
     /\ cfg = set_password pw (set_username u c)).
Proof.
  intros Hgen. split.
  - apply enrich_result_returns. exact Hgen.
  - intros (resp & u & pw & Hparse & Hresp & ->).
    exact (f_equal snd (withSecrets_success w vaultClient c body resp u pw []
                          Hgen Hparse Hresp)).
Qed.

(** X15.  Enriching twice changes nothing more: in one world, calling
    [withSecrets] on the configuration it returned returns that
    configuration again. *)
Theorem withSecrets_twice
  (w : World) (vaultClient : Client) (c cfg : DatabaseConfig) :
  enrich_result w vaultClient c = Val cfg ->
  enrich_result w vaultClient cfg = Val cfg.
Proof.
  intros Hret.
  destruct (generate_credentials w vaultClient (secretRole c)) as [body |] eqn:Hgen.
  - destruct (enrich_result_returns w vaultClient c cfg body Hgen Hret)
      as (resp & u & pw & Hparse & Hresp & ->).
    assert (Hgen' : generate_credentials w vaultClient
                      (secretRole (set_password pw (set_username u c))) = Some body)
      by exact Hgen.
    exact (f_equal snd (withSecrets_success w vaultClient _ body resp u pw []
                          Hgen' Hparse Hresp)).
  - assert (Hc : enrich_result w vaultClient c = Val c)
      by exact (f_equal snd (withSecrets_absent_response_run w vaultClient c [] Hgen)).
    rewrite Hc in Hret. injection Hret as <-. exact Hc.
Qed.

(** ** Further properties of [getVaultClient] and [main] *)

(** X16.  A login is attempted exactly when both variables are set,
    whatever they hold: the gate tests only whether they are set, so an empty
    string passes it.  The identifiers handed over are the two values as
    read, role id first. *)
Theorem login_uses_the_values_as_read (w : World) (roleId secretId : string) :
  In (EVaultLogin roleId secretId) (fst (run w)) <->
  getenv w "APPROLE_ROLE_ID" = Some roleId
  /\ getenv w "APPROLE_SECRET_ID" = Some secretId.
Proof.
  split.
  - intros Hin.
    assert (Hset : both_set w ->
                   In (EVaultLogin roleId secretId) (bootstrap_events w) ->
                   getenv w "APPROLE_ROLE_ID" = Some roleId
                   /\ getenv w "APPROLE_SECRET_ID" = Some secretId).
    { intros [Hr Hs] H. unfold bootstrap_events in H.
      destruct (getenv w "APPROLE_ROLE_ID") as [r |]; [| contradiction].
      destruct (getenv w "APPROLE_SECRET_ID") as [s |]; [| contradiction].
      in_trace H. injection H as <- <-. split; reflexivity. }
    destruct (run_classified w) as [Hb | Hone | Hs Ha | e Hs Ha Hl | Hs Ha Hl
                                   | loaded e Hs Ha Hl He | loaded cfg Hs Ha Hl He];
      cbn [fst] in Hin;
      [ in_trace Hin | in_trace Hin | .. ];
      apply in_app_or in Hin; (destruct Hin as [Hin | Hin]; [exact (Hset Hs Hin) |]);
      in_trace Hin.
    destruct (pq_connect w (conninfo_of cfg)) as [e | [|]]; discriminate Hin.
  - intros [Hr Hs].
    assert (Hset : both_set w) by (split; congruence).
    assert (Hin : In (EVaultLogin roleId secretId) (bootstrap_events w)).
    { unfold bootstrap_events. rewrite Hr, Hs. simpl. auto. }
    destruct (run_classified w) as [Hb | Hone | | | | | ]; cbn [fst];
      [ exfalso; exact (both_set_not_unset w Hset Hb)
      | exfalso; exact (both_set_not_one w Hset Hone)
      | apply in_or_app; left; exact Hin .. ].
Qed.

(** X17.  [Connected] is written exactly when the driver reports an open
    connection for the connection string of the enriched configuration. *)
Theorem connected_means_open (w : World) :
  In (EStdout "Connected") (fst (run w)) <->
  both_set w /\ is_authenticated (login_of w) = true
  /\ exists loaded cfg,
       load_result w "config.json" = Val loaded
       /\ enrich_result w (login_of w) loaded = Val cfg
       /\ pq_connect w (conninfo_of cfg) = inr true.
Proof.
  split.
  - intros Hin.
    destruct (run_classified w); unfold bootstrap_events in Hin; in_trace Hin.
    split; [assumption |]. split; [assumption |].
    exists loaded, cfg. split; [assumption |]. split; [assumption |].
    destruct (pq_connect w (conninfo_of cfg)) as [e | [|]];
      [discriminate Hin | reflexivity | discriminate Hin].
  - intros (Hb & Hauth & loaded & cfg & Hl & He & Hpq).
    rewrite (run_cases w Hb), Hauth, Hl, He, Hpq.
    unfold bootstrap_events. simpl. auto 10.
Qed.

(** X18.  A run depends on the file system only through [config.json], and
    a file that cannot be opened counts as an empty one: two file systems
    that give the same text for [config.json], a missing file reading as
    the empty text, give the same run. *)
Theorem only_config_json_is_read
  (w : World) (files1 files2 : string -> option string) :
  match files1 "config.json" with Some contents => contents | None => "" end
  = match files2 "config.json" with Some contents => contents | None => "" end ->
  run (Scenario.with_file files1 w) = run (Scenario.with_file files2 w).
Proof.
  intros Hsame.
  assert (Hload : load_result (Scenario.with_file files1 w) "config.json"
                  = load_result (Scenario.with_file files2 w) "config.json").
  { unfold load_result, getDatabaseConfiguration, read_all. run_prog.
    rewrite Hsame. reflexivity. }
  destruct (env_cases w) as [[Hr Hs] | [Hone | Hset]].
  - rewrite (run_gate (Scenario.with_file files1 w) Hr Hs).
    rewrite (run_gate (Scenario.with_file files2 w) Hr Hs). reflexivity.
  - rewrite (run_null (Scenario.with_file files1 w) Hone).
    rewrite (run_null (Scenario.with_file files2 w) Hone). reflexivity.
  - rewrite (run_cases (Scenario.with_file files1 w) Hset).
    rewrite (run_cases (Scenario.with_file files2 w) Hset).
    rewrite Hload. reflexivity.
Qed.

(** X19.  A run depends on the environment only through the two
    variables: two environments that agree on [APPROLE_ROLE_ID] and
    [APPROLE_SECRET_ID] give the same run. *)
Theorem only_two_variables_are_read
  (w : World) (env1 env2 : string -> option string) :
  env1 "APPROLE_ROLE_ID" = env2 "APPROLE_ROLE_ID" ->
  env1 "APPROLE_SECRET_ID" = env2 "APPROLE_SECRET_ID" ->
  run (Scenario.with_env env1 w) = run (Scenario.with_env env2 w).
Proof.
  intros Hr Hs.
  unfold run, main, getVaultClient, std_getenv, Vault_Client. run_prog.
  rewrite Hr, Hs. reflexivity.
Qed.

Lemma at_defined (j : json) (key : string) : at_ j key <> Undef.
Proof. destruct j; simpl; try discriminate. destruct (find key members); discriminate. Qed.

(** X20.  Loading the configuration is undefined in one situation only:
    the file parses, its [database] member has a floating-point [port], and
    the integer part of that number is not an [int] (or the number is not
    finite). *)
Theorem load_undefined_only_for_float_port (w : World) (path : string) :
  load_result w path = Undef <->
  exists doc db d,
    json_parse w (match file w path with Some contents => contents | None => "" end)
    = inr doc
    /\ member "database" doc = Some db
    /\ member "port" db = Some (JFloat d)
    /\ (truncate d = None \/ exists z, truncate d = Some z /\ fits_int z = false).
Proof.
  unfold load_result, getDatabaseConfiguration, read_all. run_prog.
  split.
  - destruct (json_parse w _) as [e | doc]; simpl; [discriminate |].
    destruct (subscript doc "database") as [[doc' db] | | |] eqn:Hsub; simpl;
      try discriminate; [| intros _; exfalso; exact (subscript_defined _ _ Hsub)].
    unfold get_DatabaseConfig, from_json. run_prog.
    destruct (at_ db "port") as [vp | | |] eqn:Hp; simpl; try discriminate;
      [| intros _; exfalso; exact (at_defined _ _ Hp)].
    destruct (get_int vp) as [n | | |] eqn:Hn; simpl; try discriminate.
    + destruct (at_ db "host") as [vh | | |] eqn:Hh; simpl; try discriminate;
        [| intros _; exfalso; exact (at_defined _ _ Hh)].
      destruct (get_string vh) as [h | | |] eqn:Hgh; simpl; try discriminate;
        [| intros _; exfalso; exact (get_string_defined _ Hgh)].
      destruct (at_ db "database") as [vd | | |] eqn:Hd; simpl; try discriminate;
        [| intros _; exfalso; exact (at_defined _ _ Hd)].
      destruct (get_string vd) as [d | | |] eqn:Hgd; simpl; try discriminate;
        [| intros _; exfalso; exact (get_string_defined _ Hgd)].
      destruct (at_ db "secret_role") as [vr | | |] eqn:Hr; simpl; try discriminate;
        [| intros _; exfalso; exact (at_defined _ _ Hr)].
      destruct (get_string vr) as [r | | |] eqn:Hgr; simpl; try discriminate.
      intros _; exfalso; exact (get_string_defined _ Hgr).
    + intros _.
      assert (Hdb : member "port" db = Some vp).
      { destruct db; simpl in Hp; try discriminate. simpl.
        destruct (find "port" members); congruence. }
      assert (Hdoc : member "database" doc = Some db).
      { destruct doc; simpl in Hsub; try discriminate.
        - injection Hsub as <- <-. discriminate Hdb.
        - simpl. destruct (find "database" members) as [v |].
          + injection Hsub as <- <-. reflexivity.
          + injection Hsub as <- <-. discriminate Hdb. }
      destruct vp; simpl in Hn; try discriminate.
      exists doc, db, d. repeat split; try assumption.
      unfold int_of_double in Hn.
      destruct (truncate d) as [z |]; [| left; reflexivity].
      destruct (fits_int z) eqn:Hz; [discriminate |].
      right. exists z. split; reflexivity || assumption.
  - intros (doc & db & d & Hparse & Hdoc & Hport & Hundef).
    rewrite Hparse. simpl. rewrite (subscript_member _ _ _ Hdoc).
    unfold get_DatabaseConfig, from_json. run_prog.
    rewrite (at_member _ _ _ Hport). simpl. unfold int_of_double.
    destruct Hundef as [-> | (z & -> & ->)]; reflexivity.
Qed.

(** ** The further properties at concrete worlds *)

Example big_port_wraps :
  load_result Variants.big_port "config.json"
  = Val (loaded_config 5432 "db" "app" "app-role").
Proof. reflexivity. Qed.

Example half_port_is_truncated :
  load_result Variants.half_port "config.json"
  = Val (loaded_config 5432 "db" "app" "app-role").
Proof. reflexivity. Qed.

Example float_port_is_undefined :
  run Variants.float_port
  = ([EGetenv "APPROLE_ROLE_ID"; EGetenv "APPROLE_SECRET_ID";
      EVaultLogin "role-1" "secret-1"; EReadFile "config.json"],
     Undef).
Proof. reflexivity. Qed.

Lemma one_line_of_output_witness :
  snd (run (Scenario.with_db Scenario.refusing_db Scenario.happy)) <> Undef
  /\ count is_stdout (fst (run (Scenario.with_db Scenario.refusing_db Scenario.happy)))
     = 1%nat.
Proof.
  assert (H : snd (run (Scenario.with_db Scenario.refusing_db Scenario.happy)) <> Undef)
    by discriminate.
  split; [exact H |].
  exact (one_line_of_output _ H).
Defined.

Lemma run_outcomes_witness :
  both_set Variants.float_port
  /\ load_result Variants.float_port "config.json" = Undef
  /\ snd (run Variants.float_port) = Undef.
Proof.
  assert (Hb : both_set Variants.float_port) by (split; discriminate).
  split; [exact Hb |]. split; [reflexivity |].
  apply (proj2 (proj1 (proj2 (run_outcomes Variants.float_port)))).
  right. split; [exact Hb |]. split; reflexivity.
Defined.

Lemma run_with_issued_credentials_witness :
  run Scenario.happy
  = ([EGetenv "APPROLE_ROLE_ID"; EGetenv "APPROLE_SECRET_ID";
      EVaultLogin "role-1" "secret-1";
      EReadFile "config.json"; EGenerateCredentials "app-role";
      EDbConnect "host=db port=5432 user=u1 password=p1 dbname=app";
      EStdout "Connected"], Val 0).
Proof.
  assert (Hb : both_set Scenario.happy) by (split; discriminate).
  assert (Hdoc : config_document (Scenario.config_json (JUInt 5432))
                   5432 "db" "app" "app-role").
  { eexists; eexists. repeat split; try reflexivity. right. reflexivity. }
  assert (Hresp : credential_response Scenario.secret_json "u1" "p1").
  { eexists. repeat split; reflexivity. }
  exact (run_with_issued_credentials Scenario.happy (Scenario.config_text "5432")
           (Scenario.config_json (JUInt 5432)) 5432 "db" "app" "app-role"
           Scenario.secret_text Scenario.secret_json "u1" "p1"
           Hb eq_refl eq_refl eq_refl Hdoc eq_refl eq_refl Hresp).
Defined.

Lemma run_without_credentials_witness :
  run (Scenario.with_secret None Scenario.happy)
  = ([EGetenv "APPROLE_ROLE_ID"; EGetenv "APPROLE_SECRET_ID";
      EVaultLogin "role-1" "secret-1";
      EReadFile "config.json"; EGenerateCredentials "app-role";
      EDbConnect "host=db port=5432 user= password= dbname=app";
      EStdout "Connected"], Val 0).
Proof.
  assert (Hb : both_set (Scenario.with_secret None Scenario.happy))
    by (split; discriminate).
  assert (Hdoc : config_document (Scenario.config_json (JUInt 5432))
                   5432 "db" "app" "app-role").
  { eexists; eexists. repeat split; try reflexivity. right. reflexivity. }
  exact (run_without_credentials (Scenario.with_secret None Scenario.happy)
           (Scenario.config_text "5432") (Scenario.config_json (JUInt 5432))
           5432 "db" "app" "app-role" Hb eq_refl eq_refl eq_refl Hdoc eq_refl).
Defined.

Lemma credentials_requested_for_configured_role_witness :
  In (EGenerateCredentials "app-role") (fst (run Scenario.happy))
  /\ is_authenticated (login_of Scenario.happy) = true.
Proof.
  assert (H : In (EGenerateCredentials "app-role") (fst (run Scenario.happy)))
    by (simpl; auto 10).
  split; [exact H |].
  exact (proj1 (proj2 (credentials_requested_for_configured_role
                         Scenario.happy "app-role" H))).
Defined.

Lemma from_json_frame_and_order_witness :
  exists e,
    from_json (JObject [("port", JUInt 5432)]) empty_config
    = (set_port 5432 empty_config, Throw e).
Proof.
  apply (proj2 (from_json_frame_and_order (JObject [("port", JUInt 5432)]) empty_config)
           (JUInt 5432) 5432 eq_refl eq_refl).
  intros s. discriminate.
Defined.

Lemma config_error_kinds_witness :
  load_result (Scenario.with_file (Scenario.only_config Scenario.secret_text)
                 Scenario.happy) "config.json"
  = Throw (type_error 304 t_null).
Proof.
  apply (proj1 (proj2 (config_error_kinds
                         (Scenario.with_file (Scenario.only_config Scenario.secret_text)
                            Scenario.happy)
                         "config.json" Scenario.secret_json eq_refl))).
  - left. reflexivity.
  - reflexivity.
Defined.

Lemma other_members_are_ignored_witness :
  load_result Scenario.happy "config.json"
  = load_result Variants.reordered "config.json".
Proof.
  apply (other_members_are_ignored Scenario.happy Variants.reordered
           "config.json" "config.json"
           [("database",
             JObject [("database", JString "app"); ("host", JString "db");
                      ("port", JUInt 5432); ("secret_role", JString "app-role")])]
           Variants.reordered_top
           [("database", JString "app"); ("host", JString "db");
            ("port", JUInt 5432); ("secret_role", JString "app-role")]
           Variants.reordered_members eq_refl eq_refl eq_refl eq_refl).
  intros key [<- | [<- | [<- | [<- | []]]]]; reflexivity.
Defined.

Lemma loaded_port_is_an_int_witness :
  load_result Variants.big_port "config.json"
  = Val (loaded_config 5432 "db" "app" "app-role")
  /\ fits_int 5432 = true.
Proof.
  split; [reflexivity |].
  exact (proj1 (loaded_port_is_an_int Variants.big_port "config.json"
                  (loaded_config 5432 "db" "app" "app-role") eq_refl)).
Defined.

Lemma connectionString_tells_ports_apart_witness :
  5432 <> 5433
  /\ snd (connectionString (set_port 5432 empty_config, []))
     <> snd (connectionString (set_port 5433 empty_config, [])).
Proof.
  assert (H : 5432 <> 5433) by lia.
  split; [exact H |].
  exact (connectionString_tells_ports_apart empty_config 5432 5433 [] H).
Defined.

Lemma withSecrets_returns_with_both_credentials_witness :
  enrich_result Scenario.happy {| is_authenticated := true |}
    (loaded_config 5432 "db" "app" "app-role")
  = Val (set_password "p1" (set_username "u1" (loaded_config 5432 "db" "app" "app-role"))).
Proof.
  apply (proj2 (withSecrets_returns_with_both_credentials Scenario.happy
                  {| is_authenticated := true |}
                  (loaded_config 5432 "db" "app" "app-role")
                  (set_password "p1" (set_username "u1"
                     (loaded_config 5432 "db" "app" "app-role")))
                  Scenario.secret_text eq_refl)).
  exists Scenario.secret_json, "u1", "p1".
  split; [reflexivity |]. split; [| reflexivity].
  eexists. repeat split; reflexivity.
Defined.

Lemma withSecrets_twice_witness :
  enrich_result Scenario.happy {| is_authenticated := true |}
    (set_password "p1" (set_username "u1" (loaded_config 5432 "db" "app" "app-role")))
  = Val (set_password "p1" (set_username "u1" (loaded_config 5432 "db" "app" "app-role"))).
Proof.
  exact (withSecrets_twice Scenario.happy {| is_authenticated := true |}
           (loaded_config 5432 "db" "app" "app-role") _ eq_refl).
Defined.

Lemma login_uses_the_values_as_read_witness :
  getenv (Scenario.with_env Variants.env_empty Scenario.happy) "APPROLE_ROLE_ID" = Some ""
  /\ In (EVaultLogin "" "")
        (fst (run (Scenario.with_env Variants.env_empty Scenario.happy))).
Proof.
  split; [reflexivity |].
  apply (proj2 (login_uses_the_values_as_read
                  (Scenario.with_env Variants.env_empty Scenario.happy) "" "")).
  split; reflexivity.
Defined.

Lemma connected_means_open_witness :
  In (EStdout "Connected") (fst (run Scenario.happy))
  /\ both_set Scenario.happy.
Proof.
  assert (H : In (EStdout "Connected") (fst (run Scenario.happy)))
    by (simpl; auto 10).
  split; [exact H |].
  exact (proj1 (proj1 (connected_means_open Scenario.happy) H)).
Defined.

Lemma only_config_json_is_read_witness :
  run (Scenario.with_file (fun _ => None) Scenario.happy)
  = run (Scenario.with_file (fun _ => Some "") Scenario.happy).
Proof.
  apply (only_config_json_is_read Scenario.happy (fun _ => None) (fun _ => Some "")).
  reflexivity.
Defined.

Lemma only_two_variables_are_read_witness :
  run (Scenario.with_env Scenario.env_both Scenario.happy)
  = run (Scenario.with_env
           (fun name => if String.eqb name "HOME" then Some "/root"
                        else Scenario.env_both name)
           Scenario.happy).
Proof.
  apply (only_two_variables_are_read Scenario.happy); reflexivity.
Defined.

Lemma load_undefined_only_for_float_port_witness :
  load_result Variants.float_port "config.json" = Undef
  /\ exists doc db d,
       json_parse Variants.float_port
         (match file Variants.float_port "config.json" with
          | Some contents => contents
          | None => ""
          end) = inr doc
       /\ member "database" doc = Some db
       /\ member "port" db = Some (JFloat d)
       /\ (truncate d = None \/ exists z, truncate d = Some z /\ fits_int z = false).
Proof.
  split; [reflexivity |].
  exact (proj1 (load_undefined_only_for_float_port Variants.float_port "config.json")
           eq_refl).
Defined.

Lemma connectionString_does_not_quote_witness :
  snd (connectionString
         (set_password "y" (set_username "u password=x" empty_config), []))
  = snd (connectionString
           (set_password "x password=y" (set_username "u" empty_config), [])).
Proof.
  exact (proj2 (connectionString_does_not_quote empty_config "u" "x" "y" [])).
Defined.
